(** * MCP server manager: registry, identity, aggregation and routing

    A shallow embedding of
    [litellm/proxy/_experimental/mcp_server/mcp_server_manager.py]
    (class [MCPServerManager]) and the properties of its registry store,
    identity generator, catalog aggregator and call router.

    Conventions of the embedding.
    - A Python [str] is a [string]: the sequence of the bytes of its UTF-8
      encoding, so that [s.encode("utf-8")] is the identity on the
      representation.
    - A Python [dict] is an association list in insertion order with
      pairwise distinct keys ([PyDict]); iteration order is list order.
    - A method that mutates [self] takes the manager and returns the new
      one; a method that may raise returns an [Outcome]; the mutations made
      before a [raise] stay in the returned manager, as in Python.
    - Coroutines are run to completion one after the other: the [await]
      points of the source are sequential calls here. *)

From Stdlib Require Import ZArith List String Ascii Bool Lia.
Import ListNotations.

Set Warnings "-register-all".

Open Scope string_scope.
Open Scope list_scope.
Open Scope Z_scope.

(* ################################################################# *)
(** * Python dictionaries with string keys *)

Module PyDict.

Definition dict (V : Type) : Type := list (string * V).

Definition empty {V : Type} : dict V := [].

(** [d.get(k)], [None] when the key is absent. *)
Fixpoint get {V : Type} (k : string) (d : dict V) : option V :=
  match d with
  | [] => None
  | (k', v) :: d' => if String.eqb k k' then Some v else get k d'
  end.

(** [k in d]. *)
Definition mem {V : Type} (k : string) (d : dict V) : bool :=
  match get k d with
  | Some _ => true
  | None => false
  end.

(** [d[k] = v]: an existing key keeps its position, a new key goes last. *)
Fixpoint set {V : Type} (k : string) (v : V) (d : dict V) : dict V :=
  match d with
  | [] => [(k, v)]
  | (k', v') :: d' =>
      if String.eqb k k' then (k', v) :: d' else (k', v') :: set k v d'
  end.

(** The entries left by [del d[k]]. *)
Definition remove {V : Type} (k : string) (d : dict V) : dict V :=
  filter (fun kv => negb (String.eqb k (fst kv))) d.

(** [del d[k]]: [None] stands for the [KeyError] of an absent key. *)
Definition del {V : Type} (k : string) (d : dict V) : option (dict V) :=
  if mem k d then Some (remove k d) else None.

(** [a | b]: the keys of [a] in their order, then the new keys of [b]
    in theirs; on a shared key the value of the right operand is kept. *)
Definition union {V : Type} (a b : dict V) : dict V :=
  map (fun kv => (fst kv, match get (fst kv) b with
                          | Some v => v
                          | None => snd kv
                          end)) a
  ++ filter (fun kv => negb (mem (fst kv) a)) b.

(** [c = a.copy(); c.update(b)], one assignment per item of [b]. *)
Definition update {V : Type} (a b : dict V) : dict V :=
  fold_left (fun acc kv => set (fst kv) (snd kv) acc) b a.

Definition keys {V : Type} (d : dict V) : list string := map fst d.

Definition values {V : Type} (d : dict V) : list V := map snd d.

Definition items {V : Type} (d : dict V) : list (string * V) := d.

End PyDict.

(* ################################################################# *)
(** * [hashlib.sha256]

    The digest of FIPS 180-4 on 32-bit words, each word a [Z] in
    [0, 2^32) with its wrap-around written out. *)

Module SHA256.

Definition w32 (x : Z) : Z := x mod 2 ^ 32.

Definition add32 (x y : Z) : Z := w32 (x + y).

Definition rotr (n x : Z) : Z :=
  Z.lor (Z.shiftr x n) (w32 (Z.shiftl x (32 - n))).

Definition shr (n x : Z) : Z := Z.shiftr x n.

Definition not32 (x : Z) : Z := w32 (Z.lnot x).

Definition Ch (x y z : Z) : Z :=
  Z.lxor (Z.land x y) (Z.land (not32 x) z).

Definition Maj (x y z : Z) : Z :=
  Z.lxor (Z.lxor (Z.land x y) (Z.land x z)) (Z.land y z).

Definition Sigma0 (x : Z) : Z :=
  Z.lxor (Z.lxor (rotr 2 x) (rotr 13 x)) (rotr 22 x).

Definition Sigma1 (x : Z) : Z :=
  Z.lxor (Z.lxor (rotr 6 x) (rotr 11 x)) (rotr 25 x).

Definition sigma0 (x : Z) : Z :=
  Z.lxor (Z.lxor (rotr 7 x) (rotr 18 x)) (shr 3 x).

Definition sigma1 (x : Z) : Z :=
  Z.lxor (Z.lxor (rotr 17 x) (rotr 19 x)) (shr 10 x).

(** The largest [r] below [2 ^ n] with [r ^ 3 <= x], one bit at a time. *)
Fixpoint cube_root_bits (n : nat) (x r : Z) : Z :=
  match n with
  | O => r
  | S n' =>
      let r' := r + 2 ^ Z.of_nat n' in
      if r' ^ 3 <=? x then cube_root_bits n' x r' else cube_root_bits n' x r
  end.

Definition cube_root (x : Z) : Z := cube_root_bits 40 x 0.

(** The first sixty-four primes. *)
Definition primes : list Z :=
  [ 2; 3; 5; 7; 11; 13; 17; 19; 23; 29; 31; 37; 41; 43; 47; 53;
    59; 61; 67; 71; 73; 79; 83; 89; 97; 101; 103; 107; 109; 113; 127; 131;
    137; 139; 149; 151; 157; 163; 167; 173; 179; 181; 191; 193; 197; 199;
    211; 223; 227; 229; 233; 239; 241; 251; 257; 263; 269; 271; 277; 281;
    283; 293; 307; 311 ].

(** The round constants: the first 32 bits of the fractional parts of
    the cube roots of the first sixty-four primes. *)
Definition K : list Z :=
  Eval vm_compute in map (fun p => w32 (cube_root (p * 2 ^ 96))) primes.

(** The eight working variables, also the chaining value. *)
Record state : Type := mkState {
  sa : Z; sb : Z; sc : Z; sd : Z; se : Z; sf : Z; sg : Z; sh : Z
}.

(** The first 32 bits of the fractional part of a square root. *)
Definition frac_sqrt (p : Z) : Z := w32 (Z.sqrt (p * 2 ^ 64)).

(** The initial hash value, from the first eight primes. *)
Definition H0 : state :=
  Eval vm_compute in
  mkState (frac_sqrt 2) (frac_sqrt 3) (frac_sqrt 5) (frac_sqrt 7)
          (frac_sqrt 11) (frac_sqrt 13) (frac_sqrt 17) (frac_sqrt 19).

(** Bytes of a string, each in [0, 256). *)
Definition bytes_of_string (s : string) : list Z :=
  map (fun c => Z.of_N (N_of_ascii c)) (list_ascii_of_string s).

(** Big-endian bytes of the low [8 * n] bits of [x]. *)
Fixpoint be_bytes (n : nat) (x : Z) : list Z :=
  match n with
  | O => []
  | S n' => Z.shiftr x (8 * Z.of_nat n') mod 256 :: be_bytes n' x
  end.

(** Message, the bit 1, zero bits up to 56 modulo 64 bytes, and the
    message length in bits on 64 bits. *)
Definition pad (msg : list Z) : list Z :=
  let len := Z.of_nat (List.length msg) in
  let zeros := Z.to_nat ((55 - len) mod 64) in
  msg ++ [0x80] ++ repeat 0 zeros ++ be_bytes 8 (8 * len).

Fixpoint words_of_bytes (fuel : nat) (bs : list Z) : list Z :=
  match fuel with
  | O => []
  | S fuel' =>
      match bs with
      | b0 :: b1 :: b2 :: b3 :: bs' =>
          (Z.shiftl b0 24 + Z.shiftl b1 16 + Z.shiftl b2 8 + b3)
            :: words_of_bytes fuel' bs'
      | _ => []
      end
  end.

(** The message schedule, most recent word first: [rev_w] holds
    W[t-1], W[t-2], ... and is extended by [n] words. *)
Fixpoint extend (n : nat) (rev_w : list Z) : list Z :=
  match n with
  | O => rev_w
  | S n' =>
      let w := add32 (add32 (sigma1 (nth 1 rev_w 0)) (nth 6 rev_w 0))
                     (add32 (sigma0 (nth 14 rev_w 0)) (nth 15 rev_w 0)) in
      extend n' (w :: rev_w)
  end.

Definition schedule (block : list Z) : list Z :=
  rev (extend 48 (rev block)).

Definition round (s : state) (kw : Z * Z) : state :=
  let t1 := add32 (add32 (add32 (sh s) (Sigma1 (se s)))
                         (add32 (Ch (se s) (sf s) (sg s)) (fst kw)))
                  (snd kw) in
  let t2 := add32 (Sigma0 (sa s)) (Maj (sa s) (sb s) (sc s)) in
  mkState (add32 t1 t2) (sa s) (sb s) (sc s)
          (add32 (sd s) t1) (se s) (sf s) (sg s).

Definition compress (h : state) (block : list Z) : state :=
  let s := fold_left round (combine K (schedule block)) h in
  mkState (add32 (sa h) (sa s)) (add32 (sb h) (sb s))
          (add32 (sc h) (sc s)) (add32 (sd h) (sd s))
          (add32 (se h) (se s)) (add32 (sf h) (sf s))
          (add32 (sg h) (sg s)) (add32 (sh h) (sh s)).

(** One block of sixteen words per step; [fuel] bounds the block count. *)
Fixpoint blocks (fuel : nat) (h : state) (ws : list Z) : state :=
  match fuel with
  | O => h
  | S fuel' =>
      match ws with
      | [] => h
      | _ => blocks fuel' (compress h (firstn 16 ws)) (skipn 16 ws)
      end
  end.

(** [hashlib.sha256(msg).digest()]: thirty-two bytes. *)
Definition digest (msg : list Z) : list Z :=
  let padded := pad msg in
  let ws := words_of_bytes (List.length padded) padded in
  let h := blocks (List.length ws) H0 ws in
  flat_map (be_bytes 4)
           [sa h; sb h; sc h; sd h; se h; sf h; sg h; sh h].

Definition hex_digit (n : Z) : ascii :=
  match Z.land n 15 with
  | 0 => "0" | 1 => "1" | 2 => "2" | 3 => "3"
  | 4 => "4" | 5 => "5" | 6 => "6" | 7 => "7"
  | 8 => "8" | 9 => "9" | 10 => "a" | 11 => "b"
  | 12 => "c" | 13 => "d" | 14 => "e" | _ => "f"
  end%char.

Definition hex_byte (b : Z) : string :=
  String (hex_digit (Z.shiftr b 4)) (String (hex_digit b) EmptyString).

Fixpoint hex_of_bytes (bs : list Z) : string :=
  match bs with
  | [] => EmptyString
  | b :: bs' => (hex_byte b ++ hex_of_bytes bs')%string
  end.

(** [hashlib.sha256(s.encode("utf-8")).hexdigest()]. *)
Definition hexdigest (s : string) : string :=
  hex_of_bytes (digest (bytes_of_string s)).

End SHA256.

(* ################################################################# *)
(** * Exceptions, outcomes and Python truthiness *)

(** [CancelledError] derives from [BaseException] and escapes
    [except Exception]; the other three are subclasses of [Exception]
    ([Exception msg] stands for any fault raised by a collaborator). *)
Inductive exn : Type :=
| ValueError (msg : string)
| KeyError (key : string)
| Exception (msg : string)
| CancelledError.

Definition is_Exception (e : exn) : bool :=
  match e with
  | CancelledError => false
  | _ => true
  end.

Inductive Outcome (A : Type) : Type :=
| Return (a : A)
| Raise (e : exn).

Arguments Return {A} a.
Arguments Raise {A} e.

(** Truth value of an [Optional[str]]: [None] and [""] are falsy. *)
Definition truthy (o : option string) : bool :=
  match o with
  | Some s => negb (String.eqb s "")
  | None => false
  end.

(** [a or b] on [Optional[str]]. *)
Definition or_opt (a b : option string) : option string :=
  if truthy a then a else b.

(** [a or d] where [d] is a string. *)
Definition or_str (a : option string) (d : string) : string :=
  match a with
  | Some s => if String.eqb s "" then d else s
  | None => d
  end.

(** [a or []]. *)
Definition or_list {A : Type} (a : option (list A)) : list A :=
  match a with
  | Some l => l
  | None => []
  end.

(* ################################################################# *)
(** * Data model *)

(** Free-form JSON values (tool schemas, call arguments, call results,
    cost information): passed through, never inspected. *)
Inductive json : Type :=
| JNull
| JBool (b : bool)
| JNum (n : Z)
| JStr (s : string)
| JArr (l : list json)
| JObj (l : list (string * json)).

Record MCPInfo : Type := mkMCPInfo {
  server_name : option string;
  description : option string;
  logo_url : option string;
  mcp_server_cost_info : option json
}.

Definition MCPInfo_empty : MCPInfo := mkMCPInfo None None None None.

Record MCPServer : Type := mkMCPServer {
  server_id : string;
  name : string;
  url : option string;
  command : option string;
  args : option (list string);
  env : option (PyDict.dict string);
  transport : option string;
  spec_version : option string;
  auth_type : option string;
  authentication_token : option string;
  mcp_info : option MCPInfo
}.

(** What the database holds in its [env] column: nothing, a JSON string
    or a dictionary. *)
Inductive EnvData : Type :=
| EnvNone
| EnvStr (s : string)
| EnvDict (d : PyDict.dict string).

(** A row of the table of dynamically registered servers. *)
Record LiteLLM_MCPServerTable : Type := mkTable {
  t_server_id : string;
  t_alias : option string;
  t_description : option string;
  t_url : option string;
  t_transport : option string;
  t_spec_version : option string;
  t_auth_type : option string;
  t_mcp_info : option MCPInfo;
  t_command : option string;
  t_args : option (list string);
  t_env : EnvData
}.

(** One value of the [mcp_servers] mapping of the configuration, as read
    by [server_config.get]: [None] is a missing key. *)
Record ServerConfig : Type := mkServerConfig {
  c_url : option string;
  c_command : option string;
  c_args : option (list string);
  c_env : option (PyDict.dict string);
  c_transport : option string;
  c_spec_version : option string;
  c_auth_type : option string;
  c_description : option string;
  c_mcp_info : option MCPInfo
}.

Record MCPTool : Type := mkMCPTool {
  tool_name : string;
  tool_description : option string;
  inputSchema : json
}.

Record MCPStdioConfig : Type := mkStdio {
  stdio_command : string;
  stdio_args : list string;
  stdio_env : PyDict.dict string
}.

(** The arguments [MCPClient] is constructed with; [timeout] in seconds. *)
Record MCPClient : Type := mkMCPClient {
  server_url : string;
  transport_type : string;
  client_auth_type : option string;
  auth_value : option string;
  timeout : Z;
  stdio_config : option MCPStdioConfig
}.

Record MCPCallToolRequestParams : Type := mkParams {
  params_name : string;
  params_arguments : json
}.

Definition CallToolResult : Type := json.

(** Modelled from the spec: the members of the transport and
    specification-version enumerations of [litellm.proxy._types], by their
    string values ([transport(enum: http|sse|stdio)]; the version tag is
    the one of the docstring of [MCPServerManager.__init__]). *)
Module MCPTransport.
Definition sse : string := "sse".
Definition http : string := "http".
Definition stdio : string := "stdio".
End MCPTransport.

Module MCPSpecVersion.
Definition mar_2025 : string := "2025-03-26".
End MCPSpecVersion.

(* ################################################################# *)
(** * Collaborators *)

(** The helpers of [litellm.proxy._experimental.mcp_server.utils]. *)
Class Utils : Type := {
  add_server_prefix_to_tool_name : string -> string -> string;
  get_server_name_prefix_tool_mcp : string -> string * string;
  is_tool_name_prefixed : string -> bool;
  normalize_server_name : string -> string;
  validate_mcp_server_name : string -> Outcome unit
}.

(** What lies outside the process: the authorization oracle, the
    upstream servers reached through a client, and [json.loads] (its
    decoding errors as [None]).  [MCPClient_list_tools c] is the outcome of
    [async with client: await client.list_tools()], [MCPClient_call_tool]
    that of [async with client: await client.call_tool(params)]. *)
Class World : Type := {
  UserAPIKeyAuth : Type;
  MCPRequestHandler_get_allowed_mcp_servers :
    option UserAPIKeyAuth -> Outcome (list string);
  MCPClient_list_tools : MCPClient -> Outcome (list MCPTool);
  MCPClient_call_tool :
    MCPClient -> MCPCallToolRequestParams -> Outcome CallToolResult;
  json_loads : string -> option (PyDict.dict string)
}.

(* ################################################################# *)
(** * The manager and its monad *)

Record MCPServerManager : Type := mkManager {
  registry : PyDict.dict MCPServer;
  config_mcp_servers : PyDict.dict MCPServer;
  tool_name_to_mcp_server_name_mapping : PyDict.dict string
}.

(** [MCPServerManager.__init__]. *)
Definition init : MCPServerManager := mkManager [] [] [].

Definition set_registry (m : MCPServerManager) (r : PyDict.dict MCPServer)
  : MCPServerManager :=
  mkManager r (config_mcp_servers m) (tool_name_to_mcp_server_name_mapping m).

Definition set_config_mcp_servers
  (m : MCPServerManager) (c : PyDict.dict MCPServer) : MCPServerManager :=
  mkManager (registry m) c (tool_name_to_mcp_server_name_mapping m).

Definition set_mapping (m : MCPServerManager) (t : PyDict.dict string)
  : MCPServerManager :=
  mkManager (registry m) (config_mcp_servers m) t.

(** A method: reads and writes [self], returns or raises. *)
Definition M (A : Type) : Type :=
  MCPServerManager -> Outcome A * MCPServerManager.

Definition ret {A : Type} (a : A) : M A := fun m => (Return a, m).

Definition raise {A : Type} (e : exn) : M A := fun m => (Raise e, m).

Definition bind {A B : Type} (c : M A) (k : A -> M B) : M B :=
  fun m =>
    match c m with
    | (Return a, m') => k a m'
    | (Raise e, m') => (Raise e, m')
    end.

Definition lift {A : Type} (o : Outcome A) : M A := fun m => (o, m).

Definition get_self : M MCPServerManager := fun m => (Return m, m).

Definition modify (f : MCPServerManager -> MCPServerManager) : M unit :=
  fun m => (Return tt, f m).

(** [try: body  except Exception as e: handler e]. *)
Definition try_except_Exception {A : Type} (body : M A) (handler : exn -> M A)
  : M A :=
  fun m =>
    match body m with
    | (Return a, m') => (Return a, m')
    | (Raise e, m') => if is_Exception e then handler e m' else (Raise e, m')
    end.

Declare Scope method_scope.
Delimit Scope method_scope with method.

Notation "x <- c ;; k" := (bind c (fun x => k))
  (at level 100, c at next level, right associativity) : method_scope.
Notation "c ;;; k" := (bind c (fun _ => k))
  (at level 100, right associativity) : method_scope.

(** [for x in xs: acc = body acc x]. *)
Fixpoint for_fold {X B : Type} (body : B -> X -> M B) (xs : list X) (acc : B)
  : M B :=
  match xs with
  | [] => ret acc
  | x :: xs' => bind (body acc x) (for_fold body xs')
  end.

(** [for x in xs: body x]. *)
Definition for_each {X : Type} (body : X -> M unit) (xs : list X) : M unit :=
  for_fold (fun _ x => body x) xs tt.

(* ################################################################# *)
(** * [MCPServerManager]: the methods

    Calls of [verbose_logger] leave the manager untouched and are not
    modelled. *)

(** [_deserialize_env_dict]. *)
Definition _deserialize_env_dict `{World} (env_data : EnvData)
  : option (PyDict.dict string) :=
  match env_data with
  | EnvNone => None
  | EnvStr s => if String.eqb s "" then None else json_loads s
  | EnvDict d =>
      match d with
      | [] => None
      | _ :: _ => Some d
      end
  end.

(** [_generate_stable_server_id]: the first 32 characters of the SHA-256
    hexadecimal digest of the parameters joined by ["|"]. *)
Definition params_string
  (server_name url transport spec_version : string)
  (auth_type : option string) : string :=
  (server_name ++ "|" ++ url ++ "|" ++ transport ++ "|" ++ spec_version
     ++ "|" ++ or_str auth_type "")%string.

Definition _generate_stable_server_id
  (server_name url transport spec_version : string)
  (auth_type : option string) : string :=
  let hash_hex :=
    SHA256.hexdigest
      (params_string server_name url transport spec_version auth_type) in
  substring 0 32 hash_hex.

Section Methods.

Context {U : Utils} {W : World}.

Local Open Scope method_scope.

(** [get_registry]: [self.config_mcp_servers | self.registry]. *)
Definition get_registry (self : MCPServerManager) : PyDict.dict MCPServer :=
  PyDict.union (config_mcp_servers self) (registry self).

(** [[dict.get(key, default)]] of a configuration value. *)
Definition get_default (o : option string) (d : string) : string :=
  match o with
  | Some s => s
  | None => d
  end.

(** The record [load_servers_from_config] builds for one entry. *)
Definition server_of_config (server_name : string) (server_config : ServerConfig)
  : MCPServer :=
  let _mcp_info :=
    match c_mcp_info server_config with
    | Some i => i
    | None => MCPInfo_empty
    end in
  let mcp_info :=
    mkMCPInfo (Some server_name) (c_description server_config)
              (logo_url _mcp_info) (mcp_server_cost_info _mcp_info) in
  let server_id :=
    _generate_stable_server_id
      server_name
      (or_str (c_url server_config) "")
      (get_default (c_transport server_config) MCPTransport.http)
      (get_default (c_spec_version server_config) MCPSpecVersion.mar_2025)
      (c_auth_type server_config) in
  {| server_id := server_id;
     name := server_name;
     url := Some (or_str (c_url server_config) "");
     command := Some (or_str (c_command server_config) "");
     args := Some (or_list (c_args server_config));
     env := Some (match c_env server_config with
                  | Some e => e
                  | None => []
                  end);
     transport :=
       Some (get_default (c_transport server_config) MCPTransport.http);
     spec_version :=
       Some (get_default (c_spec_version server_config)
                         MCPSpecVersion.mar_2025);
     auth_type := c_auth_type server_config;
     authentication_token := None;
     mcp_info := Some mcp_info |}.

(** The body of the loop of [load_servers_from_config]. *)
Definition load_server_from_config (entry : string * ServerConfig) : M unit :=
  let (server_name, server_config) := entry in
  lift (validate_mcp_server_name server_name) ;;;
  let new_server := server_of_config server_name server_config in
  modify (fun self =>
            set_config_mcp_servers self
              (PyDict.set (server_id new_server) new_server
                          (config_mcp_servers self))).

(** [initialize_tool_name_to_mcp_server_name_mapping]: with a running
    event loop the warm-up coroutine is handed to [asyncio.create_task]
    and runs after the caller returns; without one nothing happens.
    Either way the manager is unchanged when the call returns. *)
Definition initialize_tool_name_to_mcp_server_name_mapping : M unit :=
  ret tt.

(** [load_servers_from_config]. *)
Definition load_servers_from_config
  (mcp_servers_config : PyDict.dict ServerConfig) : M unit :=
  for_each load_server_from_config (PyDict.items mcp_servers_config) ;;;
  initialize_tool_name_to_mcp_server_name_mapping.

(** [del self.registry[key]]. *)
Definition del_registry (key : string) : M unit :=
  fun self =>
    match PyDict.del key (registry self) with
    | Some r => (Return tt, set_registry self r)
    | None => (Raise (KeyError key), self)
    end.

(** [remove_server]: the alias, when there is one, is looked up first,
    then the identifier; the [else] branch only logs a warning. *)
Definition remove_server (mcp_server : LiteLLM_MCPServerTable) : M unit :=
  self <- get_self ;;
  let by_server_id :=
    if PyDict.mem (t_server_id mcp_server) (get_registry self) then
      del_registry (t_server_id mcp_server)
    else
      ret tt in
  match t_alias mcp_server with
  | Some alias =>
      if PyDict.mem alias (get_registry self) then del_registry alias
      else by_server_id
  | None => by_server_id
  end.

(** The record [add_update_server] builds. *)
Definition server_of_table (mcp_server : LiteLLM_MCPServerTable) : MCPServer :=
  let _mcp_info :=
    match t_mcp_info mcp_server with
    | Some i => i
    | None => MCPInfo_empty
    end in
  let env_dict := _deserialize_env_dict (t_env mcp_server) in
  {| server_id := t_server_id mcp_server;
     name := or_str (t_alias mcp_server) (t_server_id mcp_server);
     url := t_url mcp_server;
     command := t_command mcp_server;
     args := Some (or_list (t_args mcp_server));
     env := env_dict;
     transport := t_transport mcp_server;
     spec_version := t_spec_version mcp_server;
     auth_type := t_auth_type mcp_server;
     authentication_token := None;
     mcp_info :=
       Some (mkMCPInfo
               (Some (or_str (t_alias mcp_server) (t_server_id mcp_server)))
               (t_description mcp_server)
               None
               (mcp_server_cost_info _mcp_info)) |}.

(** [add_update_server]. *)
Definition add_update_server (mcp_server : LiteLLM_MCPServerTable)
  (self : MCPServerManager) : MCPServerManager :=
  if negb (PyDict.mem (t_server_id mcp_server) (get_registry self)) then
    set_registry self
      (PyDict.set (t_server_id mcp_server) (server_of_table mcp_server)
                  (registry self))
  else
    self.

(** [get_allowed_mcp_servers]. *)
Definition get_allowed_mcp_servers (user_api_key_auth : option UserAPIKeyAuth)
  : M (list string) :=
  allowed_mcp_servers <-
    lift (MCPRequestHandler_get_allowed_mcp_servers user_api_key_auth) ;;
  if (0 <? Z.of_nat (List.length allowed_mcp_servers)) then
    ret allowed_mcp_servers
  else
    self <- get_self ;;
    ret (PyDict.keys (get_registry self)).

(** [get_mcp_server_by_id]. *)
Definition get_mcp_server_by_id (self : MCPServerManager) (id : string)
  : option MCPServer :=
  find (fun server => String.eqb (server_id server) id)
       (PyDict.values (get_registry self)).

(** [_create_mcp_client]. *)
Definition _create_mcp_client (server : MCPServer)
  (mcp_auth_header : option string) : MCPClient :=
  let transport := or_str (transport server) MCPTransport.sse in
  if String.eqb transport MCPTransport.stdio then
    let stdio_config :=
      match args server with
      | Some a =>
          if truthy (command server) then
            Some (mkStdio (or_str (command server) "") a
                          (match env server with
                           | Some e => e
                           | None => []
                           end))
          else None
      | None => None
      end in
    mkMCPClient "" transport (auth_type server)
                (or_opt mcp_auth_header (authentication_token server))
                60 stdio_config
  else
    let server_url := or_str (url server) "" in
    mkMCPClient server_url transport (auth_type server)
                (or_opt mcp_auth_header (authentication_token server))
                60 None.

(** The loop of [_get_tools_from_server] over the listed tools: the
    prefixed tool is appended and both names are mapped to the server. *)
Definition prefix_tool (server : MCPServer) (prefixed_tools : list MCPTool)
  (tool : MCPTool) : M (list MCPTool) :=
  let prefixed_name :=
    add_server_prefix_to_tool_name (tool_name tool) (name server) in
  let prefixed_tool :=
    mkMCPTool prefixed_name (tool_description tool) (inputSchema tool) in
  modify (fun self =>
            set_mapping self
              (PyDict.set prefixed_name (name server)
                 (PyDict.set (tool_name tool) (name server)
                    (tool_name_to_mcp_server_name_mapping self)))) ;;;
  ret (prefixed_tools ++ [prefixed_tool]).

(** [_get_tools_from_server].  The inner handlers re-raise what they
    catch; the outer [except Exception] returns the empty list; the
    [finally] clause disconnects and swallows the faults of doing so. *)
Definition _get_tools_from_server (server : MCPServer)
  (mcp_auth_header : option string) : M (list MCPTool) :=
  try_except_Exception
    (let client := _create_mcp_client server mcp_auth_header in
     tools <- lift (MCPClient_list_tools client) ;;
     for_fold (prefix_tool server) tools [])
    (fun _ => ret []).

(** [get_tools_for_server]. *)
Definition get_tools_for_server (id : string) : M (list MCPTool) :=
  self <- get_self ;;
  match get_mcp_server_by_id self id with
  | None => ret []
  | Some server => _get_tools_from_server server None
  end.

(** The body of the loop of [list_tools]. *)
Definition list_tools_step (mcp_auth_header : option string)
  (list_tools_result : list MCPTool) (id : string) : M (list MCPTool) :=
  self <- get_self ;;
  match get_mcp_server_by_id self id with
  | None => ret list_tools_result
  | Some server =>
      try_except_Exception
        (tools <- _get_tools_from_server server mcp_auth_header ;;
         ret (list_tools_result ++ tools))
        (fun _ => ret list_tools_result)
  end.

(** [list_tools]. *)
Definition list_tools (user_api_key_auth : option UserAPIKeyAuth)
  (mcp_auth_header : option string) : M (list MCPTool) :=
  allowed_mcp_servers <- get_allowed_mcp_servers user_api_key_auth ;;
  for_fold (list_tools_step mcp_auth_header) allowed_mcp_servers [].

(** The first server of the registry whose normalized name is that of
    [server_name]: the [for ... if ...: return server] loops of
    [_get_mcp_server_from_tool_name]. *)
Definition server_named (self : MCPServerManager) (server_name : string)
  : option MCPServer :=
  find (fun server =>
          String.eqb (normalize_server_name (name server))
                     (normalize_server_name server_name))
       (PyDict.values (get_registry self)).

(** [_get_mcp_server_from_tool_name]. *)
Definition _get_mcp_server_from_tool_name (self : MCPServerManager)
  (tool_name : string) : option MCPServer :=
  let by_prefix :=
    if is_tool_name_prefixed tool_name then
      server_named self (snd (get_server_name_prefix_tool_mcp tool_name))
    else None in
  match PyDict.get tool_name (tool_name_to_mcp_server_name_mapping self) with
  | Some server_name =>
      match server_named self server_name with
      | Some server => Some server
      | None => by_prefix
      end
  | None => by_prefix
  end.

(** [call_tool]. *)
Definition call_tool (name_ : string) (arguments : json)
  (user_api_key_auth : option UserAPIKeyAuth)
  (mcp_auth_header : option string) : M CallToolResult :=
  let (original_tool_name, server_name_from_prefix) :=
    get_server_name_prefix_tool_mcp name_ in
  self <- get_self ;;
  match _get_mcp_server_from_tool_name self name_ with
  | None => raise (ValueError ("Tool " ++ name_ ++ " not found")%string)
  | Some mcp_server =>
      if negb (String.eqb server_name_from_prefix "")
         && negb (String.eqb (normalize_server_name server_name_from_prefix)
                             (normalize_server_name (name mcp_server)))
      then
        raise (ValueError
                 ("Tool " ++ name_ ++ " server prefix mismatch: expected "
                    ++ name mcp_server ++ ", got "
                    ++ server_name_from_prefix)%string)
      else
        let client := _create_mcp_client mcp_server mcp_auth_header in
        let call_tool_params := mkParams original_tool_name arguments in
        lift (MCPClient_call_tool client call_tool_params)
  end.

(** [_initialize_tool_name_to_mcp_server_name_mapping]: the warm-up. *)
Definition warm_up_server (server : MCPServer) : M unit :=
  tools <- _get_tools_from_server server None ;;
  for_each
    (fun tool =>
       let original_name :=
         fst (get_server_name_prefix_tool_mcp (tool_name tool)) in
       modify (fun self =>
                 set_mapping self
                   (PyDict.set (tool_name tool) (name server)
                      (PyDict.set original_name (name server)
                         (tool_name_to_mcp_server_name_mapping self)))))
    tools.

Definition _initialize_tool_name_to_mcp_server_name_mapping : M unit :=
  self <- get_self ;;
  for_each warm_up_server (PyDict.values (get_registry self)).

End Methods.

(* ################################################################# *)
(** * The helpers of [utils], from the specification

    The helpers follow the Name Codec and the alias validation of the
    specification.  The theorems below hold for every [Utils]; this
    instance serves the concrete deployment. *)

Module SpecUtils.

(** Modelled from the spec: the composition marker of the Name Codec,
    missing with [utils.py] ([<upstreamAlias>.<toolName>] style). *)
Definition MCP_TOOL_PREFIX_SEPARATOR : string := ".".

Definition contains (sep s : string) : bool :=
  match index 0 sep s with
  | Some _ => true
  | None => false
  end.

(** Modelled from the spec: [compose(rawName, upstreamAlias)] of the Name
    Codec, missing with [utils.py]: alias, marker, raw name. *)
Definition add_server_prefix_to_tool_name (tool_name server_name : string)
  : string :=
  (server_name ++ MCP_TOOL_PREFIX_SEPARATOR ++ tool_name)%string.

(** Modelled from the spec: [isQualified(name)], missing with [utils.py]:
    whether the name carries the composition marker. *)
Definition is_tool_name_prefixed (tool_name : string) : bool :=
  contains MCP_TOOL_PREFIX_SEPARATOR tool_name.

(** Modelled from the spec: [decompose(name)], missing with [utils.py]:
    raw name and claimed alias around the first marker; without a marker
    the name itself and the empty (absent) alias. *)
Definition get_server_name_prefix_tool_mcp (tool_name : string)
  : string * string :=
  match index 0 MCP_TOOL_PREFIX_SEPARATOR tool_name with
  | Some i =>
      (substring (S i) (String.length tool_name - S i) tool_name,
       substring 0 i tool_name)
  | None => (tool_name, "")
  end.

Definition is_space (c : ascii) : bool :=
  match c with
  | " " | "009" | "010" | "011" | "012" | "013" => true
  | _ => false
  end%char.

Definition lower (c : ascii) : ascii :=
  let n := nat_of_ascii c in
  if ((65 <=? n) && (n <=? 90))%nat then ascii_of_nat (n + 32) else c.

Fixpoint lstrip (s : string) : string :=
  match s with
  | EmptyString => EmptyString
  | String c s' => if is_space c then lstrip s' else s
  end.

Definition reverse (s : string) : string :=
  string_of_list_ascii (rev (list_ascii_of_string s)).

Definition strip (s : string) : string :=
  reverse (lstrip (reverse (lstrip s))).

Fixpoint map_string (f : ascii -> ascii) (s : string) : string :=
  match s with
  | EmptyString => EmptyString
  | String c s' => String (f c) (map_string f s')
  end.

(** Modelled from the spec: [normalize(alias)], missing with [utils.py]:
    trimming and case folding. *)
Definition normalize_server_name (server_name : string) : string :=
  map_string lower (strip server_name).

(** Modelled from the spec: the alias validation of [loadStatic], missing
    with [utils.py]: [InvalidConfiguration] when the alias is empty or
    uses the reserved separator. *)
Definition validate_mcp_server_name (server_name : string) : Outcome unit :=
  if String.eqb server_name "" then
    Raise (Exception "InvalidConfiguration: empty server name")
  else if contains MCP_TOOL_PREFIX_SEPARATOR server_name then
    Raise (Exception "InvalidConfiguration: server name uses the separator")
  else Return tt.

Definition utils : Utils :=
  Build_Utils add_server_prefix_to_tool_name
              get_server_name_prefix_tool_mcp
              is_tool_name_prefixed
              normalize_server_name
              validate_mcp_server_name.

End SpecUtils.

(* ################################################################# *)
(** * What one upstream adds to a listing *)

Section Contribution.

Context {U : Utils} {W : World}.

(** The descriptor published for a raw tool of [server]. *)
Definition prefixed (server : MCPServer) (tool : MCPTool) : MCPTool :=
  mkMCPTool (add_server_prefix_to_tool_name (tool_name tool) (name server))
            (tool_description tool) (inputSchema tool).

(** The tools of one allowed identifier in the catalog: those its
    upstream lists, prefixed; none when the identifier does not resolve or
    the listing fails. *)
Definition contribution (self : MCPServerManager)
  (mcp_auth_header : option string) (id : string) : list MCPTool :=
  match get_mcp_server_by_id self id with
  | None => []
  | Some server =>
      match MCPClient_list_tools (_create_mcp_client server mcp_auth_header)
      with
      | Return tools => map (prefixed server) tools
      | Raise _ => []
      end
  end.

End Contribution.

(* ################################################################# *)
(** * A concrete deployment

    Three configured upstreams: [files] and [docs] both expose a raw tool
    [read]; [down] refuses connections. *)

Module Scenario.

Definition config_of_url (u : string) : ServerConfig :=
  mkServerConfig (Some u) None None None None None None None None.

Definition cfg_files : ServerConfig := config_of_url "http://files.local/mcp".
Definition cfg_docs : ServerConfig := config_of_url "http://docs.local/mcp".
Definition cfg_down : ServerConfig := config_of_url "http://down.local/mcp".

Definition mcp_servers_config : PyDict.dict ServerConfig :=
  [("down", cfg_down); ("files", cfg_files); ("docs", cfg_docs)].

Definition read_tool : MCPTool :=
  mkMCPTool "read" (Some "Read a document") (JObj [("type", JStr "object")]).

Definition search_tool : MCPTool :=
  mkMCPTool "search" None (JObj []).

Definition id_files : string :=
  Eval vm_compute in server_id (server_of_config "files" cfg_files).
Definition id_docs : string :=
  Eval vm_compute in server_id (server_of_config "docs" cfg_docs).
Definition id_down : string :=
  Eval vm_compute in server_id (server_of_config "down" cfg_down).

(** Callers are told apart by a key: ["team-a"] is restricted to [down]
    and [files], anyone else has no restriction declared.  An upstream
    answers a call with its own address and the tool name it received. *)
Definition world : World :=
  {| UserAPIKeyAuth := string;
     MCPRequestHandler_get_allowed_mcp_servers := fun auth =>
       match auth with
       | Some "team-a" => Return [id_down; id_files]
       | _ => Return []
       end;
     MCPClient_list_tools := fun client =>
       if String.eqb (server_url client) "http://files.local/mcp" then
         Return [read_tool; search_tool]
       else if String.eqb (server_url client) "http://docs.local/mcp" then
         Return [read_tool]
       else Raise (Exception "ConnectionError: connection refused");
     MCPClient_call_tool := fun client params =>
       Return (JObj [("upstream", JStr (server_url client));
                     ("tool", JStr (params_name params));
                     ("arguments", params_arguments params)]);
     json_loads := fun _ => None |}.

Definition load := @load_servers_from_config SpecUtils.utils.
Definition listing := @list_tools SpecUtils.utils world.
Definition route := @call_tool SpecUtils.utils world.

(** After [load_servers_from_config]. *)
Definition loaded : MCPServerManager :=
  Eval vm_compute in snd (load mcp_servers_config init).

(** After one aggregation pass for an unrestricted caller. *)
Definition listed : MCPServerManager :=
  Eval vm_compute in snd (listing None None loaded).

(** A database row that carries the identifier of the configured
    [files] upstream under another alias and address. *)
Definition row_files : LiteLLM_MCPServerTable :=
  mkTable id_files (Some "files-db") None (Some "http://elsewhere.local/mcp")
          (Some "sse") (Some "2025-03-26") None None None None EnvNone.

(** The row registered first, the configuration loaded afterwards. *)
Definition row_then_config : MCPServerManager :=
  Eval vm_compute in
  snd (load [("files", cfg_files)]
            (@add_update_server world row_files init)).



(** A removal request naming the configured [files] upstream by its
    identifier, without alias. *)
Definition row_static : LiteLLM_MCPServerTable :=
  mkTable id_files None None (Some "http://files.local/mcp")
          (Some "http") (Some "2025-03-26") None None None None EnvNone.

(** A removal request for an upstream nobody registered. *)
Definition row_unknown : LiteLLM_MCPServerTable :=
  mkTable "0000" (Some "ghost") None None None None None None None None
          EnvNone.

End Scenario.

(* ################################################################# *)
(** * Hydration from the database *)

(** The durable store of dynamically registered servers:
    [get_prisma_client_or_throw] of the management endpoints, which raises
    when no database is connected, and [get_all_mcp_servers]. *)
Class Database : Type := {
  PrismaClient : Type;
  get_prisma_client_or_throw : string -> Outcome PrismaClient;
  get_all_mcp_servers : PrismaClient -> Outcome (list LiteLLM_MCPServerTable)
}.

Section Hydration.

Context {W : World} {D : Database}.

Local Open Scope method_scope.

(** [_add_mcp_servers_from_db_to_in_memory_registry]. *)
Definition _add_mcp_servers_from_db_to_in_memory_registry : M unit :=
  prisma_client <-
    lift (get_prisma_client_or_throw
            "Database not connected. Connect a database to your proxy") ;;
  db_mcp_servers <- lift (get_all_mcp_servers prisma_client) ;;
  for_each (fun server => modify (add_update_server server)) db_mcp_servers.

(** The first row of the list that carries the identifier. *)
Definition first_row (id : string) (rows : list LiteLLM_MCPServerTable)
  : option LiteLLM_MCPServerTable :=
  find (fun row => String.eqb (t_server_id row) id) rows.

End Hydration.

(* ################################################################# *)
(** * Invariants and frames *)

(** A partition is keyed by the identifiers of its records, each key
    once. *)
Definition keyed (d : PyDict.dict MCPServer) : Prop :=
  NoDup (PyDict.keys d) /\ forall k s, In (k, s) d -> server_id s = k.

Definition well_keyed (self : MCPServerManager) : Prop :=
  keyed (registry self) /\ keyed (config_mcp_servers self).

(** [self'] differs from [self] in the tool index only, and the index
    has lost no name. *)
Definition index_only (self self' : MCPServerManager) : Prop :=
  registry self' = registry self
  /\ config_mcp_servers self' = config_mcp_servers self
  /\ forall k,
      PyDict.mem k (tool_name_to_mcp_server_name_mapping self) = true ->
      PyDict.mem k (tool_name_to_mcp_server_name_mapping self') = true.

(** The names [_get_tools_from_server] writes to the index for a
    listing: each raw name and its prefixed form. *)
Definition listed_names {U : Utils} (server : MCPServer) (tools : list MCPTool)
  : list string :=
  flat_map (fun tool =>
              [tool_name tool;
               add_server_prefix_to_tool_name (tool_name tool) (name server)])
           tools.

(** The index after the loop of [_get_tools_from_server] over a
    listing: two assignments per tool. *)
Definition index_after {U : Utils} (server : MCPServer) (tools : list MCPTool)
  (index : PyDict.dict string) : PyDict.dict string :=
  fold_left
    (fun d tool =>
       PyDict.set (add_server_prefix_to_tool_name (tool_name tool) (name server))
                  (name server)
                  (PyDict.set (tool_name tool) (name server) d))
    tools index.

(** The key and the record one configuration entry is stored under. *)
Definition config_item (entry : string * ServerConfig) : string * MCPServer :=
  (server_id (server_of_config (fst entry) (snd entry)),
   server_of_config (fst entry) (snd entry)).

(* ################################################################# *)
(** * More of the deployment *)

Module Operations.

(** Two rows of the database: a new upstream [mail], and a second row
    with the same identifier. *)
Definition row_mail : LiteLLM_MCPServerTable :=
  mkTable "mail-1" (Some "mail") (Some "Mail tools")
          (Some "http://mail.local/mcp") (Some "sse") (Some "2025-03-26")
          (Some "api_key") None None None EnvNone.

Definition row_mail_again : LiteLLM_MCPServerTable :=
  mkTable "mail-1" (Some "mail-copy") None (Some "http://copy.local/mcp")
          (Some "http") (Some "2025-03-26") None None None None EnvNone.

Definition database : Database :=
  {| PrismaClient := unit;
     get_prisma_client_or_throw := fun _ => Return tt;
     get_all_mcp_servers := fun _ =>
       Return [row_mail; Scenario.row_files; row_mail_again] |}.

Definition no_database : Database :=
  {| PrismaClient := unit;
     get_prisma_client_or_throw := fun msg => Raise (Exception msg);
     get_all_mcp_servers := fun _ => Return [] |}.

(** The deployment of [Scenario.world] where the listing of [docs] is
    cancelled. *)
Definition world_cancel : World :=
  {| UserAPIKeyAuth := string;
     MCPRequestHandler_get_allowed_mcp_servers := fun _ => Return [];
     MCPClient_list_tools := fun client =>
       if String.eqb (server_url client) "http://files.local/mcp" then
         Return [Scenario.read_tool; Scenario.search_tool]
       else if String.eqb (server_url client) "http://docs.local/mcp" then
         Raise CancelledError
       else Raise (Exception "ConnectionError: connection refused");
     MCPClient_call_tool := @MCPClient_call_tool Scenario.world;
     json_loads := fun _ => None |}.

(** A deployment whose authorization oracle fails. *)
Definition world_denied : World :=
  {| UserAPIKeyAuth := string;
     MCPRequestHandler_get_allowed_mcp_servers := fun _ =>
       Raise (Exception "authorization backend unavailable");
     MCPClient_list_tools := @MCPClient_list_tools Scenario.world;
     MCPClient_call_tool := @MCPClient_call_tool Scenario.world;
     json_loads := fun _ => None |}.




(** The manager of [Scenario.loaded] with [mail] registered. *)
Definition with_mail : MCPServerManager :=
  Eval vm_compute in @add_update_server Scenario.world row_mail Scenario.loaded.

End Operations.

(* ################################################################# *)
(** * Facts about dictionaries *)

Section DictFacts.

Context {V : Type}.

Implicit Types (d a b : PyDict.dict V) (k : string) (v : V).

Lemma get_set_same k v d : PyDict.get k (PyDict.set k v d) = Some v.
Proof.
  induction d as [|[k' v'] d IH]; simpl.
  - now rewrite String.eqb_refl.
  - destruct (String.eqb k k') eqn:E; simpl; rewrite E; auto.
Qed.

Lemma get_set_other k k' v d :
  k <> k' -> PyDict.get k' (PyDict.set k v d) = PyDict.get k' d.
Proof.
  intros Hne. induction d as [|[k0 v0] d IH]; simpl.
  - destruct (String.eqb k' k) eqn:E; auto.
    apply String.eqb_eq in E. congruence.
  - destruct (String.eqb k k0) eqn:E; simpl.
    + apply String.eqb_eq in E. subst k0.
      destruct (String.eqb k' k) eqn:E'; auto.
      apply String.eqb_eq in E'. congruence.
    + now rewrite IH.
Qed.

Lemma mem_set_same k v d : PyDict.mem k (PyDict.set k v d) = true.
Proof. unfold PyDict.mem. now rewrite get_set_same. Qed.

Lemma mem_set_other k k' v d :
  PyDict.mem k' d = true -> PyDict.mem k' (PyDict.set k v d) = true.
Proof.
  intros H. destruct (String.eqb k k') eqn:E.
  - apply String.eqb_eq in E. subst. apply mem_set_same.
  - apply String.eqb_neq in E. unfold PyDict.mem in *.
    now rewrite get_set_other.
Qed.

Lemma mem_keys k d : PyDict.mem k d = true <-> In k (PyDict.keys d).
Proof.
  unfold PyDict.mem. induction d as [|[k' v'] d IH]; simpl.
  - split; [discriminate | tauto].
  - destruct (String.eqb k k') eqn:E.
    + apply String.eqb_eq in E. subst. tauto.
    + apply String.eqb_neq in E. rewrite IH. split; [tauto|].
      intros [H|H]; [congruence | exact H].
Qed.

Lemma get_app k a b :
  PyDict.get k (a ++ b) =
  match PyDict.get k a with
  | Some v => Some v
  | None => PyDict.get k b
  end.
Proof.
  induction a as [|[k' v'] a IH]; simpl; auto.
  destruct (String.eqb k k'); auto.
Qed.

Lemma get_map_values k (f : string -> V -> V) d :
  PyDict.get k (map (fun kv => (fst kv, f (fst kv) (snd kv))) d) =
  option_map (f k) (PyDict.get k d).
Proof.
  induction d as [|[k' v'] d IH]; simpl; auto.
  destruct (String.eqb k k') eqn:E; auto.
  apply String.eqb_eq in E. now subst.
Qed.

Lemma get_filter_keys k (p : string -> bool) d :
  p k = true ->
  PyDict.get k (filter (fun kv => p (fst kv)) d) = PyDict.get k d.
Proof.
  intros Hp. induction d as [|[k' v'] d IH]; simpl; auto.
  destruct (String.eqb k k') eqn:E.
  - apply String.eqb_eq in E. subst k'. rewrite Hp. simpl.
    now rewrite String.eqb_refl.
  - destruct (p k'); simpl; [rewrite E|]; exact IH.
Qed.

(** The right operand of [a | b] wins on a shared key. *)
Lemma get_union k a b :
  PyDict.get k (PyDict.union a b) =
  match PyDict.get k b with
  | Some v => Some v
  | None => PyDict.get k a
  end.
Proof.
  unfold PyDict.union. rewrite get_app.
  rewrite (get_map_values k
             (fun k0 v0 => match PyDict.get k0 b with
                           | Some v => v
                           | None => v0
                           end) a).
  destruct (PyDict.get k a) as [va|] eqn:Ea; simpl.
  - destruct (PyDict.get k b); reflexivity.
  - rewrite (get_filter_keys k (fun k0 => negb (PyDict.mem k0 a))).
    + destruct (PyDict.get k b); reflexivity.
    + unfold PyDict.mem. now rewrite Ea.
Qed.

Lemma mem_union k a b :
  PyDict.mem k (PyDict.union a b) = PyDict.mem k a || PyDict.mem k b.
Proof.
  unfold PyDict.mem. rewrite get_union.
  destruct (PyDict.get k b), (PyDict.get k a); reflexivity.
Qed.

Lemma get_remove_same k d : PyDict.get k (PyDict.remove k d) = None.
Proof.
  unfold PyDict.remove. induction d as [|[k' v'] d IH]; simpl; auto.
  destruct (String.eqb k k') eqn:E; simpl; auto. now rewrite E.
Qed.

Lemma get_remove_other k k' d :
  k <> k' -> PyDict.get k' (PyDict.remove k d) = PyDict.get k' d.
Proof.
  intros Hne. unfold PyDict.remove.
  apply (get_filter_keys k' (fun k0 => negb (String.eqb k k0))).
  apply Bool.negb_true_iff, String.eqb_neq, Hne.
Qed.

End DictFacts.

(** ** Merging: [a | b] against [copy] and [update] *)

Section DictMerge.

Context {V : Type}.

Implicit Types (d a b : PyDict.dict V) (k : string) (v : V).

Lemma get_none_keys k d : PyDict.get k d = None <-> ~ In k (PyDict.keys d).
Proof.
  rewrite <- mem_keys. unfold PyDict.mem.
  destruct (PyDict.get k d); split; intros H; congruence.
Qed.

Lemma mem_set k k' v d :
  PyDict.mem k' (PyDict.set k v d) = String.eqb k k' || PyDict.mem k' d.
Proof.
  unfold PyDict.mem. destruct (String.eqb k k') eqn:E.
  - apply String.eqb_eq in E. subst. now rewrite get_set_same.
  - apply String.eqb_neq in E. now rewrite get_set_other.
Qed.

(** Two dictionaries with the same keys in the same order and the same
    value under every key are the same dictionary. *)
Lemma dict_ext d1 d2 :
  NoDup (PyDict.keys d1) ->
  PyDict.keys d1 = PyDict.keys d2 ->
  (forall k, PyDict.get k d1 = PyDict.get k d2) ->
  d1 = d2.
Proof.
  revert d2. induction d1 as [|[k1 v1] d1 IH]; intros [|[k2 v2] d2] Hnd Hk Hg;
    try discriminate; auto.
  cbn in Hk. injection Hk as Hk1 Hkeys. subst k2.
  inversion Hnd as [|? ? Hnotin Hnd']; subst.
  pose proof (Hg k1) as Hv. cbn in Hv. rewrite String.eqb_refl in Hv.
  injection Hv as Hv. subst v2. f_equal.
  apply IH; auto.
  intros k. pose proof (Hg k) as Hk'. cbn in Hk'.
  destruct (String.eqb k k1) eqn:E; auto.
  apply String.eqb_eq in E. subst k.
  transitivity (@None V).
  - now apply get_none_keys.
  - symmetry. apply get_none_keys. unfold PyDict.keys in *.
    now rewrite <- Hkeys.
Qed.

Lemma keys_set k v d :
  PyDict.keys (PyDict.set k v d) =
  if PyDict.mem k d then PyDict.keys d else PyDict.keys d ++ [k].
Proof.
  unfold PyDict.mem, PyDict.keys. induction d as [|[k' v'] d IH]; cbn; auto.
  destruct (String.eqb k k') eqn:E; cbn; auto.
  rewrite IH. destruct (PyDict.get k d); reflexivity.
Qed.

Lemma keys_union a b :
  PyDict.keys (PyDict.union a b) =
  PyDict.keys a ++ filter (fun k => negb (PyDict.mem k a)) (PyDict.keys b).
Proof.
  unfold PyDict.union, PyDict.keys. rewrite map_app, map_map. cbn [fst].
  f_equal. now rewrite filter_map_swap.
Qed.

Lemma keys_update a b :
  NoDup (PyDict.keys b) ->
  PyDict.keys (PyDict.update a b) =
  PyDict.keys a ++ filter (fun k => negb (PyDict.mem k a)) (PyDict.keys b).
Proof.
  unfold PyDict.update. revert a.
  induction b as [|[k v] b IH]; intros a Hnd.
  - cbn. now rewrite app_nil_r.
  - change (PyDict.keys ((k, v) :: b)) with (k :: PyDict.keys b) in *.
    inversion Hnd as [|? ? Hnotin Hnd']; subst.
    cbn [fold_left fst snd filter].
    rewrite (IH _ Hnd'), keys_set.
    replace (filter (fun k0 => negb (PyDict.mem k0 (PyDict.set k v a)))
                    (PyDict.keys b))
      with (filter (fun k0 => negb (PyDict.mem k0 a)) (PyDict.keys b)).
    + destruct (PyDict.mem k a); cbn; auto. now rewrite <- app_assoc.
    + apply filter_ext_in. intros k0 Hin. rewrite mem_set.
      destruct (String.eqb k k0) eqn:E; auto.
      apply String.eqb_eq in E. subst. contradiction.
Qed.

Lemma get_update k a b :
  NoDup (PyDict.keys b) ->
  PyDict.get k (PyDict.update a b) =
  match PyDict.get k b with
  | Some v => Some v
  | None => PyDict.get k a
  end.
Proof.
  unfold PyDict.update. revert a.
  induction b as [|[k0 v0] b IH]; intros a Hnd; [reflexivity|].
  change (PyDict.keys ((k0, v0) :: b)) with (k0 :: PyDict.keys b) in *.
  inversion Hnd as [|? ? Hnotin Hnd']; subst.
  cbn [fold_left fst snd PyDict.get].
  rewrite (IH _ Hnd').
  destruct (String.eqb k k0) eqn:E.
  - apply String.eqb_eq in E. subst k0.
    apply get_none_keys in Hnotin. rewrite Hnotin. apply get_set_same.
  - apply String.eqb_neq in E.
    rewrite get_set_other by congruence. reflexivity.
Qed.

Lemma NoDup_keys_union a b :
  NoDup (PyDict.keys a) -> NoDup (PyDict.keys b) ->
  NoDup (PyDict.keys (PyDict.union a b)).
Proof.
  intros Ha Hb. rewrite keys_union. apply NoDup_app; auto.
  - now apply NoDup_filter.
  - intros k Hin Hf. apply filter_In in Hf. destruct Hf as [_ Hf].
    apply mem_keys in Hin. rewrite Hin in Hf. discriminate.
Qed.

(** On dictionaries, [a | b] is a copy of [a] updated with [b]. *)
Lemma union_update a b :
  NoDup (PyDict.keys a) -> NoDup (PyDict.keys b) ->
  PyDict.union a b = PyDict.update a b.
Proof.
  intros Ha Hb. apply dict_ext.
  - now apply NoDup_keys_union.
  - now rewrite keys_union, keys_update.
  - intros k. now rewrite get_union, get_update.
Qed.

End DictMerge.
(** The constants as FIPS 180-4 prints them (first and last round
    constant, first and last word of the initial hash value). *)
Example sha256_constants :
  nth 0 SHA256.K 0 = 0x428a2f98 /\ nth 63 SHA256.K 0 = 0xc67178f2
  /\ List.length SHA256.K = 64%nat
  /\ SHA256.sa SHA256.H0 = 0x6a09e667 /\ SHA256.sh SHA256.H0 = 0x5be0cd19.
Proof. vm_compute. repeat split; reflexivity. Qed.

Example sha256_empty :
  SHA256.hexdigest "" =
  "e3b0c44298fc1c149afbf4c8996fb92427ae41e4649b934ca495991b7852b855".
Proof. vm_compute. reflexivity. Qed.

Example sha256_abc :
  SHA256.hexdigest "abc" =
  "ba7816bf8f01cfea414140de5dae2223b00361a396177a9cb410ff61f20015ad".
Proof. vm_compute. reflexivity. Qed.

Example sha256_two_blocks :
  SHA256.hexdigest "abcdbcdecdefdefgefghfghighijhijkijkljklmklmnlmnomnopnopq" =
  "248d6a61d20638b8e5c026930c3e6039a33ce45964ff2167f6ecedd419db06c1".
Proof. vm_compute. reflexivity. Qed.

(* ################################################################# *)
(** * Registry store *)

Lemma get_registry_get (self : MCPServerManager) (id : string) :
  PyDict.get id (get_registry self) =
  match PyDict.get id (registry self) with
  | Some d => Some d
  | None => PyDict.get id (config_mcp_servers self)
  end.
Proof. unfold get_registry. apply get_union. Qed.

Lemma get_registry_mem (self : MCPServerManager) (id : string) :
  PyDict.mem id (get_registry self) =
  PyDict.mem id (config_mcp_servers self) || PyDict.mem id (registry self).
Proof. unfold get_registry. apply mem_union. Qed.

(** The static record of an identifier is reported while the dynamic
    partition does not hold that identifier. *)
Lemma get_registry_static (self : MCPServerManager) (id : string) :
  PyDict.get id (registry self) = None ->
  PyDict.get id (get_registry self) = PyDict.get id (config_mcp_servers self).
Proof. intros H. now rewrite get_registry_get, H. Qed.

(** A record just stored in the static partition is the one reported,
    unless the dynamic partition holds its identifier. *)
Lemma get_registry_set_static
  (self : MCPServerManager) (id : string) (s : MCPServer) :
  PyDict.mem id (registry self) = false ->
  PyDict.get id
    (get_registry
       (set_config_mcp_servers self
          (PyDict.set id s (config_mcp_servers self))))
  = Some s.
Proof.
  intros H. rewrite get_registry_get.
  unfold set_config_mcp_servers. cbn [registry config_mcp_servers].
  unfold PyDict.mem in H.
  destruct (PyDict.get id (registry self)); [discriminate|].
  apply get_set_same.
Qed.

(** C1, as stated, fails: with the row registered first and the
    configuration loaded afterwards, both partitions hold the identifier of
    [files], and [get_registry] reports the dynamic record, not the static
    one. *)
Lemma get_registry_static_wins_counterexample :
  PyDict.get Scenario.id_files (config_mcp_servers Scenario.row_then_config)
  = Some (server_of_config "files" Scenario.cfg_files)
  /\ PyDict.get Scenario.id_files (registry Scenario.row_then_config)
     = Some (@server_of_table Scenario.world Scenario.row_files)
  /\ PyDict.get Scenario.id_files (get_registry Scenario.row_then_config)
     <> Some (server_of_config "files" Scenario.cfg_files).
Proof.
  vm_compute. split; [reflexivity|]. split; [reflexivity|]. discriminate.
Qed.

(** C1 (amended): for every pair of records sharing an identifier, the
    first in the static partition and the second in the dynamic partition,
    the mapping returned by [get_registry] maps the identifier to the
    dynamic record: the right operand of [config_mcp_servers | registry]
    wins ties.  The static record is reported while the dynamic partition
    does not hold the identifier. *)
Theorem get_registry_dynamic_wins
  (self : MCPServerManager) (id : string) (s : MCPServer) :
  PyDict.get id (config_mcp_servers self) = Some s ->
  (forall d, PyDict.get id (registry self) = Some d ->
             PyDict.get id (get_registry self) = Some d)
  /\ (PyDict.get id (registry self) = None ->
      PyDict.get id (get_registry self) = Some s).
Proof.
  intros Hs. split.
  - intros d Hd. now rewrite get_registry_get, Hd.
  - intros Hd. now rewrite get_registry_get, Hd.
Qed.

Lemma get_registry_dynamic_wins_witness :
  PyDict.get Scenario.id_files (get_registry Scenario.row_then_config)
  = Some (@server_of_table Scenario.world Scenario.row_files)
  /\ PyDict.get Scenario.id_files (get_registry Scenario.loaded)
     = Some (server_of_config "files" Scenario.cfg_files).
Proof.
  split.
  - exact (proj1 (get_registry_dynamic_wins
                    Scenario.row_then_config Scenario.id_files
                    (server_of_config "files" Scenario.cfg_files)
                    ltac:(vm_compute; reflexivity))
                 (@server_of_table Scenario.world Scenario.row_files)
                 ltac:(vm_compute; reflexivity)).
  - exact (proj2 (get_registry_dynamic_wins
                    Scenario.loaded Scenario.id_files
                    (server_of_config "files" Scenario.cfg_files)
                    ltac:(vm_compute; reflexivity))
                 ltac:(vm_compute; reflexivity)).
Defined.

Section RegistryStore.

Context {U : Utils} {W : World}.

Lemma load_server_from_config_valid
  (server_name : string) (server_config : ServerConfig)
  (self : MCPServerManager) :
  validate_mcp_server_name server_name = Return tt ->
  load_server_from_config (server_name, server_config) self =
  (Return tt,
   set_config_mcp_servers self
     (PyDict.set (server_id (server_of_config server_name server_config))
                 (server_of_config server_name server_config)
                 (config_mcp_servers self))).
Proof.
  intros Hv. unfold load_server_from_config, bind, lift, modify.
  now rewrite Hv.
Qed.

Lemma load_server_from_config_invalid
  (server_name : string) (server_config : ServerConfig) (e : exn)
  (self : MCPServerManager) :
  validate_mcp_server_name server_name = Raise e ->
  load_server_from_config (server_name, server_config) self = (Raise e, self).
Proof.
  intros Hv. unfold load_server_from_config, bind, lift. now rewrite Hv.
Qed.

(** Registering a row whose identifier the registry already reports
    changes nothing. *)
Lemma add_update_server_known
  (mcp_server : LiteLLM_MCPServerTable) (self : MCPServerManager) :
  PyDict.mem (t_server_id mcp_server) (get_registry self) = true ->
  add_update_server mcp_server self = self.
Proof. intros H. unfold add_update_server. now rewrite H. Qed.

(** Registering a row with a new identifier stores its record in the
    dynamic partition. *)
Lemma add_update_server_new
  (mcp_server : LiteLLM_MCPServerTable) (self : MCPServerManager) :
  PyDict.mem (t_server_id mcp_server) (get_registry self) = false ->
  PyDict.get (t_server_id mcp_server)
             (get_registry (add_update_server mcp_server self))
  = Some (server_of_table mcp_server).
Proof.
  intros H. unfold add_update_server. rewrite H. simpl.
  rewrite get_registry_get. simpl. now rewrite get_set_same.
Qed.

(** C2 (amended): registering a row whose identifier is already
    present in the union of both partitions is a no-op, so [get_registry]
    reports every stored record unchanged; in particular, after loading a
    configuration entry A into a manager whose dynamic partition does not
    hold A's identifier (a fresh manager, say) and then registering a row
    with A's identifier, [get_registry] reports A's static record. *)
Theorem add_update_server_existing_is_noop :
  (forall (mcp_server : LiteLLM_MCPServerTable) (self : MCPServerManager),
      PyDict.mem (t_server_id mcp_server) (get_registry self) = true ->
      add_update_server mcp_server self = self
      /\ get_registry (add_update_server mcp_server self) = get_registry self)
  /\
  (forall (server_name : string) (server_config : ServerConfig)
          (mcp_server : LiteLLM_MCPServerTable) (self : MCPServerManager),
      let A := server_of_config server_name server_config in
      validate_mcp_server_name server_name = Return tt ->
      PyDict.mem (server_id A) (registry self) = false ->
      t_server_id mcp_server = server_id A ->
      let loaded :=
        snd (load_servers_from_config [(server_name, server_config)] self) in
      PyDict.get (server_id A) (get_registry loaded) = Some A
      /\ PyDict.get (server_id A)
                    (get_registry (add_update_server mcp_server loaded))
         = Some A).
Proof.
  split.
  - intros mcp_server self H.
    now rewrite (add_update_server_known mcp_server self H).
  - intros server_name server_config mcp_server self A Hv Hdyn Hid loaded.
    assert (Hloaded :
              loaded = set_config_mcp_servers self
                         (PyDict.set (server_id A) A (config_mcp_servers self))).
    { unfold loaded, load_servers_from_config, for_each, PyDict.items,
        initialize_tool_name_to_mcp_server_name_mapping.
      cbn [for_fold]. unfold bind at 1 2.
      rewrite (load_server_from_config_valid _ _ _ Hv). reflexivity. }
    assert (Hget : PyDict.get (server_id A) (get_registry loaded) = Some A).
    { rewrite Hloaded. now apply get_registry_set_static. }
    split; [exact Hget|].
    rewrite add_update_server_known; [exact Hget|].
    rewrite Hid. unfold PyDict.mem. now rewrite Hget.
Qed.

End RegistryStore.

Lemma add_update_server_existing_is_noop_witness :
  PyDict.get Scenario.id_files
    (get_registry
       (@add_update_server Scenario.world Scenario.row_files
          (snd (Scenario.load [("files", Scenario.cfg_files)] init))))
  = Some (server_of_config "files" Scenario.cfg_files).
Proof.
  apply (proj2 (@add_update_server_existing_is_noop
                  SpecUtils.utils Scenario.world)
               "files" Scenario.cfg_files Scenario.row_files init).
  - vm_compute. reflexivity.
  - vm_compute. reflexivity.
  - vm_compute. reflexivity.
Defined.

(** C2, as stated, fails: a row is registered, the configuration entry
    [files], which has the identifier of the row, is loaded, and the row is
    registered again.  The last registration is a no-op, but what
    [get_registry] reports under the identifier, before and after it, is
    the record of the row, not the static record of [files]. *)
Lemma add_update_server_after_load_counterexample :
  Scenario.row_then_config
  = snd (Scenario.load [("files", Scenario.cfg_files)]
           (@add_update_server Scenario.world Scenario.row_files init))
  /\ t_server_id Scenario.row_files
     = server_id (server_of_config "files" Scenario.cfg_files)
  /\ PyDict.get (server_id (server_of_config "files" Scenario.cfg_files))
       (get_registry
          (@add_update_server Scenario.world Scenario.row_files
             Scenario.row_then_config))
     = Some (@server_of_table Scenario.world Scenario.row_files)
  /\ @server_of_table Scenario.world Scenario.row_files
     <> server_of_config "files" Scenario.cfg_files.
Proof.
  vm_compute. split; [reflexivity|]. split; [reflexivity|].
  split; [reflexivity|]. discriminate.
Qed.

(* ################################################################# *)
(** * Loops *)

Lemma for_fold_app {X B : Type} (body : B -> X -> M B) (xs ys : list X)
  (acc : B) (self : MCPServerManager) :
  for_fold body (xs ++ ys) acc self =
  match for_fold body xs acc self with
  | (Return b, self') => for_fold body ys b self'
  | (Raise e, self') => (Raise e, self')
  end.
Proof.
  revert acc self. induction xs as [|x xs IH]; intros acc self.
  - reflexivity.
  - cbn [app for_fold]. unfold bind.
    destruct (body acc x self) as [[b|e] self1]; [apply IH | reflexivity].
Qed.

Lemma for_fold_cons {X B : Type} (body : B -> X -> M B) (x : X) (xs : list X)
  (acc : B) (self : MCPServerManager) :
  for_fold body (x :: xs) acc self =
  match body acc x self with
  | (Return b, self') => for_fold body xs b self'
  | (Raise e, self') => (Raise e, self')
  end.
Proof. reflexivity. Qed.

(* ################################################################# *)
(** * Removal *)

(** [remove_server] never touches the static partition nor the index. *)
Lemma remove_server_keeps_static
  (mcp_server : LiteLLM_MCPServerTable) (self : MCPServerManager) :
  config_mcp_servers (snd (remove_server mcp_server self))
  = config_mcp_servers self
  /\ tool_name_to_mcp_server_name_mapping (snd (remove_server mcp_server self))
     = tool_name_to_mcp_server_name_mapping self.
Proof.
  unfold remove_server, bind, get_self, del_registry, ret.
  destruct (t_alias mcp_server) as [alias|];
    repeat match goal with
           | |- context [if ?b then _ else _] => destruct b
           | |- context [match PyDict.del ?k ?d with _ => _ end] =>
               destruct (PyDict.del k d)
           end; simpl; auto.
Qed.

(** Neither the alias nor the identifier is a key of the registry: the
    call returns and leaves the manager as it is. *)
Lemma remove_server_unknown
  (mcp_server : LiteLLM_MCPServerTable) (self : MCPServerManager) :
  (forall alias, t_alias mcp_server = Some alias ->
                 PyDict.mem alias (get_registry self) = false) ->
  PyDict.mem (t_server_id mcp_server) (get_registry self) = false ->
  remove_server mcp_server self = (Return tt, self).
Proof.
  intros Ha Hid. unfold remove_server, bind, get_self, ret.
  rewrite Hid. destruct (t_alias mcp_server) as [alias|]; auto.
  now rewrite (Ha alias eq_refl).
Qed.

(** Removing twice what is in neither partition: the same outcome twice. *)
Lemma remove_server_unknown_twice
  (mcp_server : LiteLLM_MCPServerTable) (self : MCPServerManager) :
  (forall alias, t_alias mcp_server = Some alias ->
                 PyDict.mem alias (get_registry self) = false) ->
  PyDict.mem (t_server_id mcp_server) (get_registry self) = false ->
  remove_server mcp_server (snd (remove_server mcp_server self))
  = remove_server mcp_server self.
Proof.
  intros Ha Hid. rewrite (remove_server_unknown _ _ Ha Hid). cbn [snd].
  now apply remove_server_unknown.
Qed.

(** The identifier is held by the dynamic partition (and the alias is no
    key): the entry is deleted from the dynamic partition. *)
Lemma remove_server_dynamic
  (mcp_server : LiteLLM_MCPServerTable) (self : MCPServerManager) :
  (forall alias, t_alias mcp_server = Some alias ->
                 PyDict.mem alias (get_registry self) = false) ->
  PyDict.mem (t_server_id mcp_server) (registry self) = true ->
  remove_server mcp_server self =
  (Return tt,
   set_registry self (PyDict.remove (t_server_id mcp_server) (registry self))).
Proof.
  intros Ha Hid. unfold remove_server, bind, get_self, ret.
  rewrite (get_registry_mem self (t_server_id mcp_server)), Hid,
    Bool.orb_true_r.
  assert (Hdel : del_registry (t_server_id mcp_server) self =
                 (Return tt,
                  set_registry self
                    (PyDict.remove (t_server_id mcp_server) (registry self)))).
  { unfold del_registry, PyDict.del. now rewrite Hid. }
  destruct (t_alias mcp_server) as [alias|]; auto.
  now rewrite (Ha alias eq_refl).
Qed.

(** The identifier is held by the static partition only: the membership
    test on the union succeeds and [del self.registry[...]] raises. *)
Lemma remove_server_static_only
  (mcp_server : LiteLLM_MCPServerTable) (self : MCPServerManager) :
  (forall alias, t_alias mcp_server = Some alias ->
                 PyDict.mem alias (get_registry self) = false) ->
  PyDict.mem (t_server_id mcp_server) (config_mcp_servers self) = true ->
  PyDict.mem (t_server_id mcp_server) (registry self) = false ->
  remove_server mcp_server self
  = (Raise (KeyError (t_server_id mcp_server)), self).
Proof.
  intros Ha Hs Hd. unfold remove_server, bind, get_self, ret.
  rewrite (get_registry_mem self (t_server_id mcp_server)), Hs. cbn [orb].
  assert (Hdel : del_registry (t_server_id mcp_server) self =
                 (Raise (KeyError (t_server_id mcp_server)), self)).
  { unfold del_registry, PyDict.del. now rewrite Hd. }
  destruct (t_alias mcp_server) as [alias|]; auto.
  now rewrite (Ha alias eq_refl).
Qed.

(** C3: [remove_server] is claimed never to raise.  On the manager loaded
    from the configuration, whose dynamic partition is empty, removing the
    configured [files] upstream by its identifier raises [KeyError]: the
    identifier is found in the union and deleted from the dynamic
    partition, which does not hold it.  The manager is left unchanged. *)
Theorem remove_server_static_raises_KeyError :
  PyDict.mem Scenario.id_files (config_mcp_servers Scenario.loaded) = true
  /\ registry Scenario.loaded = []
  /\ remove_server Scenario.row_static Scenario.loaded
     = (Raise (KeyError Scenario.id_files), Scenario.loaded).
Proof. vm_compute. repeat split; reflexivity. Qed.

(** The other cases of C3 on the same deployment: an unknown upstream is
    removed twice with the same quiet outcome. *)
Example remove_server_unknown_example :
  remove_server Scenario.row_unknown Scenario.loaded
  = (Return tt, Scenario.loaded)
  /\ remove_server Scenario.row_unknown
       (snd (remove_server Scenario.row_unknown Scenario.loaded))
     = (Return tt, Scenario.loaded).
Proof. vm_compute. split; reflexivity. Qed.

(* ################################################################# *)
(** * Loading the configuration *)

Section Loading.

Context {U : Utils}.

(** Well-formed entries are all loaded: the loop returns, touches the
    static partition only, keeps the identifiers already there and adds
    the identifier of every entry. *)
Lemma load_valid_entries (entries : list (string * ServerConfig)) :
  Forall (fun entry => validate_mcp_server_name (fst entry) = Return tt)
         entries ->
  forall self : MCPServerManager,
  exists self',
    for_each load_server_from_config entries self = (Return tt, self')
    /\ registry self' = registry self
    /\ tool_name_to_mcp_server_name_mapping self'
       = tool_name_to_mcp_server_name_mapping self
    /\ (forall k, PyDict.mem k (config_mcp_servers self) = true ->
                  PyDict.mem k (config_mcp_servers self') = true)
    /\ (forall n c, In (n, c) entries ->
                    PyDict.mem (server_id (server_of_config n c))
                               (config_mcp_servers self') = true).
Proof.
  unfold for_each.
  induction 1 as [|[n c] entries Hv _ IH]; intros self.
  - exists self. repeat split; auto.
  - rewrite for_fold_cons.
    rewrite (load_server_from_config_valid n c self Hv).
    destruct (IH (set_config_mcp_servers self
                    (PyDict.set (server_id (server_of_config n c))
                                (server_of_config n c)
                                (config_mcp_servers self))))
      as (self' & Hrun & Hreg & Hmap & Hkeep & Hall).
    exists self'. repeat split; auto.
    + intros k Hk. apply Hkeep. simpl. now apply mem_set_other.
    + intros n' c' [Heq|Hin].
      * inversion Heq; subst. apply Hkeep. simpl. apply mem_set_same.
      * now apply Hall.
Qed.

(** C4 (amended): when the configuration holds a malformed entry,
    [load_servers_from_config] raises that entry's validation error at the
    first malformed entry: the manager is left as after loading the
    well-formed entries that precede it, all of which are in the static
    partition, and the entries that follow it are not processed. *)
Theorem load_servers_from_config_stops_at_malformed
  (pre post : list (string * ServerConfig))
  (bad : string) (server_config : ServerConfig) (e : exn)
  (self : MCPServerManager) :
  Forall (fun entry => validate_mcp_server_name (fst entry) = Return tt) pre ->
  validate_mcp_server_name bad = Raise e ->
  load_servers_from_config (pre ++ (bad, server_config) :: post) self
  = (Raise e, snd (load_servers_from_config pre self))
  /\ fst (load_servers_from_config pre self) = Return tt
  /\ (forall n c, In (n, c) pre ->
        PyDict.mem (server_id (server_of_config n c))
          (config_mcp_servers
             (snd (load_servers_from_config
                     (pre ++ (bad, server_config) :: post) self))) = true).
Proof.
  intros Hpre Hbad.
  destruct (load_valid_entries pre Hpre self)
    as (self' & Hrun & _ & _ & _ & Hall).
  assert (Hload_pre : load_servers_from_config pre self = (Return tt, self')).
  { unfold load_servers_from_config, PyDict.items, bind.
    now rewrite Hrun. }
  assert (Hload :
            load_servers_from_config (pre ++ (bad, server_config) :: post) self
            = (Raise e, self')).
  { unfold load_servers_from_config, PyDict.items, bind, for_each.
    rewrite for_fold_app. fold (for_each load_server_from_config pre self).
    rewrite Hrun, for_fold_cons.
    now rewrite (load_server_from_config_invalid bad server_config e self' Hbad). }
  rewrite Hload, Hload_pre. repeat split; auto.
Qed.

End Loading.

(** C4, as stated, fails: with the malformed alias first, the well-formed
    entry [files] that follows it is not loaded into the static
    partition. *)
Lemma load_servers_from_config_isolation_counterexample :
  SpecUtils.validate_mcp_server_name "bad.alias"
  = Raise (Exception "InvalidConfiguration: server name uses the separator")
  /\ SpecUtils.validate_mcp_server_name "files" = Return tt
  /\ fst (Scenario.load [("bad.alias", Scenario.cfg_down);
                         ("files", Scenario.cfg_files)] init)
     = Raise (Exception "InvalidConfiguration: server name uses the separator")
  /\ PyDict.mem Scenario.id_files
       (config_mcp_servers
          (snd (Scenario.load [("bad.alias", Scenario.cfg_down);
                               ("files", Scenario.cfg_files)] init)))
     = false.
Proof. vm_compute. repeat split; reflexivity. Qed.

Lemma load_servers_from_config_stops_at_malformed_witness :
  Scenario.load [("docs", Scenario.cfg_docs);
                 ("bad.alias", Scenario.cfg_down);
                 ("files", Scenario.cfg_files)] init
  = (Raise (Exception "InvalidConfiguration: server name uses the separator"),
     snd (Scenario.load [("docs", Scenario.cfg_docs)] init)).
Proof.
  apply (proj1 (@load_servers_from_config_stops_at_malformed
                  SpecUtils.utils
                  [("docs", Scenario.cfg_docs)]
                  [("files", Scenario.cfg_files)]
                  "bad.alias" Scenario.cfg_down
                  (Exception
                     "InvalidConfiguration: server name uses the separator")
                  init
                  ltac:(repeat constructor)
                  ltac:(vm_compute; reflexivity))).
Defined.

(* ################################################################# *)
(** * Catalog aggregator *)

Section Aggregator.

Context {U : Utils} {W : World}.

(** The partitions decide which server an identifier resolves to. *)
Lemma get_mcp_server_by_id_ext (self self' : MCPServerManager) (id : string) :
  registry self' = registry self ->
  config_mcp_servers self' = config_mcp_servers self ->
  get_mcp_server_by_id self' id = get_mcp_server_by_id self id.
Proof.
  intros Hr Hc. unfold get_mcp_server_by_id, get_registry. now rewrite Hr, Hc.
Qed.

Lemma contribution_ext (self self' : MCPServerManager)
  (mcp_auth_header : option string) (id : string) :
  registry self' = registry self ->
  config_mcp_servers self' = config_mcp_servers self ->
  contribution self' mcp_auth_header id = contribution self mcp_auth_header id.
Proof.
  intros Hr Hc. unfold contribution.
  now rewrite (get_mcp_server_by_id_ext self self' id Hr Hc).
Qed.

(** [get_allowed_mcp_servers] reads the manager and leaves it as it is. *)
Lemma get_allowed_mcp_servers_pure
  (user_api_key_auth : option UserAPIKeyAuth) (self : MCPServerManager) :
  snd (get_allowed_mcp_servers user_api_key_auth self) = self.
Proof.
  unfold get_allowed_mcp_servers, bind, lift, get_self, ret.
  destruct (MCPRequestHandler_get_allowed_mcp_servers user_api_key_auth)
    as [l|e]; auto.
  destruct (0 <? Z.of_nat (List.length l)); auto.
Qed.

(** The loop over the listed tools publishes every tool under its
    prefixed name and writes to the index only. *)
Lemma prefix_tools_run (server : MCPServer) (tools acc : list MCPTool)
  (self : MCPServerManager) :
  exists self',
    for_fold (prefix_tool server) tools acc self
    = (Return (acc ++ map (prefixed server) tools), self')
    /\ registry self' = registry self
    /\ config_mcp_servers self' = config_mcp_servers self.
Proof.
  revert acc self. induction tools as [|tool tools IH]; intros acc self.
  - exists self. cbn. now rewrite app_nil_r.
  - rewrite for_fold_cons. unfold prefix_tool at 1, bind, modify, ret.
    match goal with
    | |- context [for_fold _ tools ?a ?s] => destruct (IH a s) as (s' & H & Hr & Hc)
    end.
    exists s'. rewrite H. cbn [map]. rewrite <- app_assoc.
    repeat split; auto.
Qed.

(** One upstream, not cancelled: its listing, or nothing when it fails. *)
Lemma _get_tools_from_server_run (server : MCPServer)
  (mcp_auth_header : option string) (self : MCPServerManager) :
  MCPClient_list_tools (_create_mcp_client server mcp_auth_header)
  <> Raise CancelledError ->
  exists self',
    _get_tools_from_server server mcp_auth_header self
    = (Return
         match MCPClient_list_tools (_create_mcp_client server mcp_auth_header)
         with
         | Return tools => map (prefixed server) tools
         | Raise _ => []
         end, self')
    /\ registry self' = registry self
    /\ config_mcp_servers self' = config_mcp_servers self.
Proof.
  intros Hnc. unfold _get_tools_from_server, try_except_Exception, bind, lift.
  destruct (MCPClient_list_tools (_create_mcp_client server mcp_auth_header))
    as [tools|e].
  - destruct (prefix_tools_run server tools [] self) as (s' & H & Hr & Hc).
    exists s'. rewrite H. auto.
  - exists self. destruct e; try (cbn; auto). congruence.
Qed.

Lemma list_tools_step_run (mcp_auth_header : option string)
  (acc : list MCPTool) (id : string) (self : MCPServerManager) :
  (forall server,
      get_mcp_server_by_id self id = Some server ->
      MCPClient_list_tools (_create_mcp_client server mcp_auth_header)
      <> Raise CancelledError) ->
  exists self',
    list_tools_step mcp_auth_header acc id self
    = (Return (acc ++ contribution self mcp_auth_header id), self')
    /\ registry self' = registry self
    /\ config_mcp_servers self' = config_mcp_servers self.
Proof.
  intros Hnc. unfold list_tools_step, contribution, bind at 1, get_self.
  destruct (get_mcp_server_by_id self id) as [server|].
  - destruct (_get_tools_from_server_run server mcp_auth_header self
                (Hnc server eq_refl)) as (s' & H & Hr & Hc).
    exists s'. unfold try_except_Exception, bind, ret. rewrite H. auto.
  - exists self. unfold ret. now rewrite app_nil_r.
Qed.

Lemma list_tools_loop_run (mcp_auth_header : option string)
  (ids : list string) (acc : list MCPTool) (self : MCPServerManager) :
  (forall id server,
      In id ids ->
      get_mcp_server_by_id self id = Some server ->
      MCPClient_list_tools (_create_mcp_client server mcp_auth_header)
      <> Raise CancelledError) ->
  exists self',
    for_fold (list_tools_step mcp_auth_header) ids acc self
    = (Return (acc ++ flat_map (contribution self mcp_auth_header) ids), self')
    /\ registry self' = registry self
    /\ config_mcp_servers self' = config_mcp_servers self.
Proof.
  revert acc self. induction ids as [|id ids IH]; intros acc self Hnc.
  - exists self. cbn. now rewrite app_nil_r.
  - rewrite for_fold_cons.
    destruct (list_tools_step_run mcp_auth_header acc id self)
      as (s1 & H1 & Hr1 & Hc1).
    { intros server. apply Hnc. now left. }
    rewrite H1.
    destruct (IH (acc ++ contribution self mcp_auth_header id) s1)
      as (s2 & H2 & Hr2 & Hc2).
    { intros id' server Hin Hres. apply (Hnc id' server); [now right|].
      now rewrite <- (get_mcp_server_by_id_ext self s1 id' Hr1 Hc1). }
    exists s2. rewrite H2. cbn [flat_map]. rewrite <- app_assoc.
    rewrite (flat_map_ext (contribution s1 mcp_auth_header)
                          (contribution self mcp_auth_header)).
    + repeat split; congruence.
    + intros a. now apply contribution_ext.
Qed.




(** C6: when the authorization oracle returns an empty sequence, the
    allow-list computed by [get_allowed_mcp_servers] is the list of the
    keys of [get_registry], which are exactly the identifiers held by
    either partition; when the oracle returns a non-empty sequence, that
    sequence is returned unchanged. *)
Theorem get_allowed_mcp_servers_default_all
  (user_api_key_auth : option UserAPIKeyAuth) (self : MCPServerManager)
  (answer : list string) :
  MCPRequestHandler_get_allowed_mcp_servers user_api_key_auth = Return answer ->
  (answer = [] ->
   get_allowed_mcp_servers user_api_key_auth self
   = (Return (PyDict.keys (get_registry self)), self)
   /\ forall id,
       In id (PyDict.keys (get_registry self)) <->
       In id (PyDict.keys (config_mcp_servers self))
       \/ In id (PyDict.keys (registry self)))
  /\ (answer <> [] ->
      get_allowed_mcp_servers user_api_key_auth self = (Return answer, self)).
Proof.
  intros Hanswer. unfold get_allowed_mcp_servers, bind, lift, get_self, ret.
  rewrite Hanswer. split.
  - intros ->. cbn. split; [reflexivity|].
    intros id. rewrite <- !mem_keys, get_registry_mem.
    apply Bool.orb_true_iff.
  - intros Hne. destruct answer as [|a l]; [congruence|]. reflexivity.
Qed.

End Aggregator.



Lemma get_allowed_mcp_servers_default_all_witness :
  @get_allowed_mcp_servers Scenario.world None Scenario.loaded
  = (Return [Scenario.id_down; Scenario.id_files; Scenario.id_docs],
     Scenario.loaded)
  /\ @get_allowed_mcp_servers Scenario.world (Some "team-a") Scenario.loaded
     = (Return [Scenario.id_down; Scenario.id_files], Scenario.loaded).
Proof.
  split.
  - etransitivity.
    + exact (proj1 (proj1 (@get_allowed_mcp_servers_default_all
                             Scenario.world None Scenario.loaded [] eq_refl)
                          eq_refl)).
    + vm_compute. reflexivity.
  - exact (proj2 (@get_allowed_mcp_servers_default_all
                    Scenario.world (Some "team-a") Scenario.loaded
                    [Scenario.id_down; Scenario.id_files] eq_refl)
                 ltac:(discriminate)).
Defined.

(* ################################################################# *)
(** * Call router *)

Section Router.

Context {U : Utils} {W : World}.


(** What [call_tool] does once the owner is resolved. *)
Lemma call_tool_resolved (name_ : string) (arguments : json)
  (user_api_key_auth : option UserAPIKeyAuth)
  (mcp_auth_header : option string) (self : MCPServerManager)
  (mcp_server : MCPServer) :
  _get_mcp_server_from_tool_name self name_ = Some mcp_server ->
  call_tool name_ arguments user_api_key_auth mcp_auth_header self =
  let original_tool_name := fst (get_server_name_prefix_tool_mcp name_) in
  let server_name_from_prefix := snd (get_server_name_prefix_tool_mcp name_) in
  if negb (String.eqb server_name_from_prefix "")
     && negb (String.eqb (normalize_server_name server_name_from_prefix)
                         (normalize_server_name (name mcp_server)))
  then
    (Raise (ValueError
              ("Tool " ++ name_ ++ " server prefix mismatch: expected "
                 ++ name mcp_server ++ ", got "
                 ++ server_name_from_prefix)%string), self)
  else
    (MCPClient_call_tool (_create_mcp_client mcp_server mcp_auth_header)
                         (mkParams original_tool_name arguments), self).
Proof.
  intros Hres. unfold call_tool.
  destruct (get_server_name_prefix_tool_mcp name_) as [orig pre].
  unfold bind, get_self. rewrite Hres. cbn [fst snd].
  destruct (negb (String.eqb pre "")
            && negb (String.eqb (normalize_server_name pre)
                                (normalize_server_name (name mcp_server))));
    reflexivity.
Qed.


(** C8: a call that passes resolution and the prefix check is dispatched
    to the client of the resolved server with the raw tool name of the
    decomposition, not the name it was routed by, and the outcome of the
    upstream, result or fault, is the outcome of [call_tool]. *)
Theorem call_tool_dispatches_raw_name
  (name_ : string) (arguments : json)
  (user_api_key_auth : option UserAPIKeyAuth)
  (mcp_auth_header : option string) (self : MCPServerManager)
  (mcp_server : MCPServer) :
  let raw := fst (get_server_name_prefix_tool_mcp name_) in
  let claimed := snd (get_server_name_prefix_tool_mcp name_) in
  _get_mcp_server_from_tool_name self name_ = Some mcp_server ->
  claimed = ""
  \/ normalize_server_name claimed = normalize_server_name (name mcp_server) ->
  call_tool name_ arguments user_api_key_auth mcp_auth_header self
  = (MCPClient_call_tool (_create_mcp_client mcp_server mcp_auth_header)
                         {| params_name := raw;
                            params_arguments := arguments |},
     self).
Proof.
  intros raw claimed Hres Hcheck.
  rewrite (call_tool_resolved _ _ _ _ _ _ Hres). cbv zeta.
  fold claimed. fold raw.
  destruct Hcheck as [-> | ->].
  - reflexivity.
  - now rewrite String.eqb_refl, Bool.andb_false_r.
Qed.

(** A call that returns was dispatched under the raw name. *)
Lemma call_tool_returns_inv
  (name_ : string) (arguments : json)
  (user_api_key_auth : option UserAPIKeyAuth)
  (mcp_auth_header : option string) (self self' : MCPServerManager)
  (result : CallToolResult) :
  call_tool name_ arguments user_api_key_auth mcp_auth_header self
  = (Return result, self') ->
  exists mcp_server,
    _get_mcp_server_from_tool_name self name_ = Some mcp_server
    /\ MCPClient_call_tool
         (_create_mcp_client mcp_server mcp_auth_header)
         (mkParams (fst (get_server_name_prefix_tool_mcp name_)) arguments)
       = Return result
    /\ self' = self.
Proof.
  intros Hcall.
  destruct (_get_mcp_server_from_tool_name self name_) as [mcp_server|] eqn:Hres.
  - rewrite (call_tool_resolved _ _ _ _ _ _ Hres) in Hcall. cbv zeta in Hcall.
    exists mcp_server. split; [reflexivity|].
    destruct (negb _ && negb _) in Hcall; inversion Hcall; subst; auto.
  - unfold call_tool in Hcall.
    destruct (get_server_name_prefix_tool_mcp name_) as [orig pre].
    unfold bind, get_self, raise in Hcall. rewrite Hres in Hcall.
    discriminate.
Qed.

End Router.



(** A prefix naming a configured upstream that does not list the raw
    tool: the full name is not in the index, the prefix resolves the
    upstream it names, the check passes and the call is dispatched there. *)
Example call_tool_prefix_of_non_owner :
  PyDict.get "docs.search"
    (tool_name_to_mcp_server_name_mapping Scenario.listed) = None
  /\ fst (Scenario.route "docs.search" (JObj []) None None Scenario.listed)
     = Return (JObj [("upstream", JStr "http://docs.local/mcp");
                     ("tool", JStr "search"); ("arguments", JObj [])]).
Proof. vm_compute. split; reflexivity. Qed.

Lemma call_tool_dispatches_raw_name_witness :
  Scenario.route "files.read" (JObj [("path", JStr "/tmp/a")]) None None
                 Scenario.listed
  = (@MCPClient_call_tool Scenario.world
       (_create_mcp_client (server_of_config "files" Scenario.cfg_files) None)
       (mkParams "read" (JObj [("path", JStr "/tmp/a")])),
     Scenario.listed).
Proof.
  apply (@call_tool_dispatches_raw_name
           SpecUtils.utils Scenario.world "files.read"
           (JObj [("path", JStr "/tmp/a")]) None None Scenario.listed
           (server_of_config "files" Scenario.cfg_files)).
  - vm_compute. reflexivity.
  - right. vm_compute. reflexivity.
Defined.

(* ################################################################# *)
(** * Identity generator *)

Lemma hex_digit_is_hex (n : Z) :
  In (SHA256.hex_digit n) (list_ascii_of_string "0123456789abcdef").
Proof.
  unfold SHA256.hex_digit.
  destruct (Z.land n 15) as [|p|p]; [cbn; tauto| |cbn; tauto].
  do 4 (try destruct p as [p|p|]); cbn; tauto.
Qed.

Lemma hex_of_bytes_length (bs : list Z) :
  String.length (SHA256.hex_of_bytes bs) = (2 * List.length bs)%nat.
Proof.
  induction bs as [|b bs IH]; [reflexivity|].
  cbn [SHA256.hex_of_bytes SHA256.hex_byte String.append String.length
       List.length].
  rewrite IH. lia.
Qed.

Lemma hex_of_bytes_hex (bs : list Z) (c : ascii) :
  In c (list_ascii_of_string (SHA256.hex_of_bytes bs)) ->
  In c (list_ascii_of_string "0123456789abcdef").
Proof.
  induction bs as [|b bs IH]; [intros []|].
  intros H.
  cbn [SHA256.hex_of_bytes SHA256.hex_byte String.append
       list_ascii_of_string In] in H.
  destruct H as [<-|[<-|H]].
  - apply hex_digit_is_hex.
  - apply hex_digit_is_hex.
  - apply IH, H.
Qed.

(** A digest is thirty-two bytes, whatever the message. *)
Lemma digest_length (msg : list Z) : List.length (SHA256.digest msg) = 32%nat.
Proof. reflexivity. Qed.

Lemma hexdigest_length (s : string) :
  String.length (SHA256.hexdigest s) = 64%nat.
Proof.
  unfold SHA256.hexdigest. now rewrite hex_of_bytes_length, digest_length.
Qed.

Lemma substring_prefix_length (n : nat) (s : string) :
  (n <= String.length s)%nat -> String.length (substring 0 n s) = n.
Proof.
  revert s. induction n as [|n IH]; intros s Hn.
  - destruct s; reflexivity.
  - destruct s as [|c s]; cbn in *; [lia|]. rewrite IH; lia.
Qed.

Lemma substring_prefix_In (n : nat) (s : string) (c : ascii) :
  In c (list_ascii_of_string (substring 0 n s)) ->
  In c (list_ascii_of_string s).
Proof.
  revert s. induction n as [|n IH]; intros s.
  - destruct s; cbn; tauto.
  - destruct s as [|c' s]; cbn; [tauto|]. intros [H|H]; auto.
Qed.

(** C10: whatever the five parameters, empty strings and an absent
    [auth_type] included, the identifier is exactly 32 characters long,
    all of them lowercase hexadecimal digits: the first 32 characters of
    the SHA-256 hexadecimal digest of the parameters joined by ["|"]. *)
Theorem _generate_stable_server_id_is_hex32
  (server_name url transport spec_version : string)
  (auth_type : option string) :
  let hash_id :=
    _generate_stable_server_id server_name url transport spec_version
                               auth_type in
  String.length hash_id = 32%nat
  /\ (forall c, In c (list_ascii_of_string hash_id) ->
                In c (list_ascii_of_string "0123456789abcdef"))
  /\ hash_id = substring 0 32
            (SHA256.hexdigest
               (server_name ++ "|" ++ url ++ "|" ++ transport ++ "|"
                  ++ spec_version ++ "|"
                  ++ match auth_type with
                     | Some a => a
                     | None => ""
                     end)%string).
Proof.
  intros hash_id. subst hash_id. unfold _generate_stable_server_id.
  split; [|split].
  - apply substring_prefix_length. rewrite hexdigest_length. lia.
  - intros c Hc. apply substring_prefix_In in Hc.
    now apply hex_of_bytes_hex in Hc.
  - unfold params_string, or_str.
    destruct auth_type as [a|]; [|reflexivity].
    destruct (String.eqb a "") eqn:E; [|reflexivity].
    apply String.eqb_eq in E. now subst.
Qed.

(** The identifier of an upstream of the deployment, as [hashlib]
    computes it. *)
Example _generate_stable_server_id_files :
  _generate_stable_server_id "files" "http://files.local/mcp" "http"
                             "2025-03-26" None
  = "d98b17fc26bd1e5c7e1d91a4a536f108".
Proof. vm_compute. reflexivity. Qed.

(** An absent and an empty [auth_type] give the same string to hash. *)
Lemma params_string_auth_empty
  (server_name url transport spec_version : string) :
  params_string server_name url transport spec_version (Some "")
  = params_string server_name url transport spec_version None.
Proof. reflexivity. Qed.

Lemma append_inj_l (a b c : string) :
  (a ++ b)%string = (a ++ c)%string -> b = c.
Proof.
  induction a as [|x a IH]; cbn; [auto|]. intros H. inversion H. auto.
Qed.

(** An absent and a non-empty [auth_type] give different strings to
    hash. *)
Lemma params_string_auth_differs
  (server_name url transport spec_version auth_type : string) :
  auth_type <> "" ->
  params_string server_name url transport spec_version (Some auth_type)
  <> params_string server_name url transport spec_version None.
Proof.
  intros Hne H. unfold params_string, or_str in H.
  destruct (String.eqb auth_type "") eqn:E.
  - apply String.eqb_eq in E. contradiction.
  - do 8 apply append_inj_l in H. contradiction.
Qed.

(** Two upstreams of the deployment alike but for the authentication
    kind: different identifiers. *)
Example _generate_stable_server_id_auth_scenario :
  _generate_stable_server_id "files" "http://files.local/mcp" "http"
                             "2025-03-26" (Some "api_key")
  <> _generate_stable_server_id "files" "http://files.local/mcp" "http"
                                "2025-03-26" None.
Proof. vm_compute. discriminate. Qed.

(* ################################################################# *)
(** * Registry store: removal and registration *)

(** X1: whatever it is given and whatever its outcome, [remove_server]
    leaves the static partition and the tool index as they are: only the
    dynamic partition can change. *)
Theorem remove_server_touches_dynamic_only
  (mcp_server : LiteLLM_MCPServerTable) (self : MCPServerManager) :
  config_mcp_servers (snd (remove_server mcp_server self))
  = config_mcp_servers self
  /\ tool_name_to_mcp_server_name_mapping (snd (remove_server mcp_server self))
     = tool_name_to_mcp_server_name_mapping self
  /\ forall k,
      PyDict.mem k (registry (snd (remove_server mcp_server self))) = true ->
      PyDict.mem k (registry self) = true.
Proof.
  destruct (remove_server_keeps_static mcp_server self) as [Hc Hm].
  split; [exact Hc|]. split; [exact Hm|].
  intros k. unfold remove_server, bind, get_self, ret, del_registry, PyDict.del.
  destruct (t_alias mcp_server) as [alias|];
    repeat match goal with
           | |- context [if ?b then _ else _] => destruct b eqn:?
           end; cbn [snd registry set_registry]; auto;
    unfold PyDict.mem;
    match goal with
    | |- context [PyDict.remove ?x ?d] =>
        destruct (String.eqb x k) eqn:E;
        [apply String.eqb_eq in E; subst; now rewrite get_remove_same
        |apply String.eqb_neq in E; now rewrite (get_remove_other x k d E)]
    end.
Qed.

(** X2: when neither the alias nor the identifier of the row is a key of
    the registry, [remove_server] returns without touching the manager,
    and so does every repetition of the call. *)
Theorem remove_server_absent_is_noop
  (mcp_server : LiteLLM_MCPServerTable) (self : MCPServerManager) :
  (forall alias, t_alias mcp_server = Some alias ->
                 PyDict.mem alias (get_registry self) = false) ->
  PyDict.mem (t_server_id mcp_server) (get_registry self) = false ->
  remove_server mcp_server self = (Return tt, self)
  /\ remove_server mcp_server (snd (remove_server mcp_server self))
     = (Return tt, self).
Proof.
  intros Ha Hid.
  pose proof (remove_server_unknown mcp_server self Ha Hid) as H.
  split; [exact H|]. rewrite H. exact H.
Qed.

Lemma remove_server_absent_is_noop_witness :
  remove_server Scenario.row_unknown Scenario.loaded
  = (Return tt, Scenario.loaded)
  /\ remove_server Scenario.row_unknown
       (snd (remove_server Scenario.row_unknown Scenario.loaded))
     = (Return tt, Scenario.loaded).
Proof.
  exact (remove_server_absent_is_noop
           Scenario.row_unknown Scenario.loaded
           ltac:(intros alias Ha; injection Ha as <-; vm_compute; reflexivity)
           ltac:(vm_compute; reflexivity)).
Defined.

(** X3: removing by identifier a server held by the dynamic partition
    (its alias being no key) returns; afterwards the dynamic partition no
    longer holds the identifier, and every other identifier resolves in
    the registry as before. *)
Theorem remove_server_deletes_dynamic_entry
  (mcp_server : LiteLLM_MCPServerTable) (self : MCPServerManager) :
  (forall alias, t_alias mcp_server = Some alias ->
                 PyDict.mem alias (get_registry self) = false) ->
  PyDict.mem (t_server_id mcp_server) (registry self) = true ->
  let self' := snd (remove_server mcp_server self) in
  fst (remove_server mcp_server self) = Return tt
  /\ PyDict.get (t_server_id mcp_server) (registry self') = None
  /\ PyDict.get (t_server_id mcp_server) (get_registry self')
     = PyDict.get (t_server_id mcp_server) (config_mcp_servers self)
  /\ forall id, id <> t_server_id mcp_server ->
       PyDict.get id (get_registry self') = PyDict.get id (get_registry self).
Proof.
  intros Ha Hid self'. unfold self'.
  rewrite (remove_server_dynamic mcp_server self Ha Hid). cbn [fst snd].
  split; [reflexivity|]. split; [|split].
  - cbn. apply get_remove_same.
  - rewrite get_registry_get. cbn [registry set_registry config_mcp_servers].
    now rewrite get_remove_same.
  - intros id Hne. rewrite !get_registry_get.
    cbn [registry set_registry config_mcp_servers].
    rewrite get_remove_other by congruence. reflexivity.
Qed.

Lemma remove_server_deletes_dynamic_entry_witness :
  fst (remove_server Operations.row_mail Operations.with_mail) = Return tt
  /\ PyDict.get "mail-1"
       (get_registry (snd (remove_server Operations.row_mail
                                         Operations.with_mail)))
     = None.
Proof.
  pose proof (remove_server_deletes_dynamic_entry
                Operations.row_mail Operations.with_mail
                ltac:(intros alias Ha; injection Ha as <-;
                      vm_compute; reflexivity)
                ltac:(vm_compute; reflexivity)) as H.
  cbv zeta in H. destruct H as (H1 & _ & H3 & _).
  split; [exact H1|].
  etransitivity; [exact H3|]. vm_compute. reflexivity.
Defined.

(** X4: the alias is tried before the identifier: when the alias of the
    row is a key of the dynamic partition, that key is the one deleted, and
    the entry under the row's identifier, when it is another key, stays. *)
Theorem remove_server_alias_first
  (mcp_server : LiteLLM_MCPServerTable) (alias : string)
  (self : MCPServerManager) :
  t_alias mcp_server = Some alias ->
  PyDict.mem alias (registry self) = true ->
  remove_server mcp_server self
  = (Return tt, set_registry self (PyDict.remove alias (registry self)))
  /\ (t_server_id mcp_server <> alias ->
      PyDict.get (t_server_id mcp_server)
                 (registry (snd (remove_server mcp_server self)))
      = PyDict.get (t_server_id mcp_server) (registry self)).
Proof.
  intros Ha Hmem.
  assert (Hrun : remove_server mcp_server self
                 = (Return tt,
                    set_registry self (PyDict.remove alias (registry self)))).
  { unfold remove_server, bind, get_self. rewrite Ha.
    rewrite (get_registry_mem self alias), Hmem, Bool.orb_true_r.
    unfold del_registry, PyDict.del. now rewrite Hmem. }
  split; [exact Hrun|]. intros Hne. rewrite Hrun. cbn [snd registry set_registry].
  apply get_remove_other. congruence.
Qed.

Lemma remove_server_alias_first_witness :
  remove_server
    (mkTable "mail-1" (Some Scenario.id_files) None None None None None None
             None None EnvNone)
    (@add_update_server Scenario.world Scenario.row_files
       (@add_update_server Scenario.world Operations.row_mail init))
  = (Return tt, @add_update_server Scenario.world Operations.row_mail init).
Proof.
  etransitivity.
  - exact (proj1 (remove_server_alias_first
                    (mkTable "mail-1" (Some Scenario.id_files) None None None
                             None None None None None EnvNone)
                    Scenario.id_files
                    (@add_update_server Scenario.world Scenario.row_files
                       (@add_update_server Scenario.world Operations.row_mail
                                           init))
                    eq_refl ltac:(vm_compute; reflexivity))).
  - vm_compute. reflexivity.
Defined.

Section Registration.

Context {W : World}.

(** X5: [add_update_server] is idempotent, never touches the static
    partition nor the index, and never replaces a record the registry
    already reports: after the call every identifier that resolved before
    resolves to the same record, and the identifier of the row resolves. *)
Theorem add_update_server_idempotent_and_conservative
  (mcp_server : LiteLLM_MCPServerTable) (self : MCPServerManager) :
  add_update_server mcp_server (add_update_server mcp_server self)
  = add_update_server mcp_server self
  /\ config_mcp_servers (add_update_server mcp_server self)
     = config_mcp_servers self
  /\ tool_name_to_mcp_server_name_mapping (add_update_server mcp_server self)
     = tool_name_to_mcp_server_name_mapping self
  /\ (forall id s,
        PyDict.get id (get_registry self) = Some s ->
        PyDict.get id (get_registry (add_update_server mcp_server self))
        = Some s)
  /\ PyDict.mem (t_server_id mcp_server)
                (get_registry (add_update_server mcp_server self)) = true.
Proof.
  destruct (PyDict.mem (t_server_id mcp_server) (get_registry self)) eqn:Hm.
  - rewrite (add_update_server_known mcp_server self Hm).
    rewrite (add_update_server_known mcp_server self Hm). auto.
  - assert (Hnew : PyDict.mem (t_server_id mcp_server)
                     (get_registry (add_update_server mcp_server self)) = true).
    { unfold PyDict.mem. now rewrite (add_update_server_new _ _ Hm). }
    split; [now apply add_update_server_known|].
    unfold add_update_server in *. rewrite Hm in *. cbn [negb] in *.
    split; [reflexivity|]. split; [reflexivity|]. split; [|exact Hnew].
    intros id s Hs. rewrite get_registry_get in *.
    cbn [registry set_registry config_mcp_servers].
    destruct (String.eqb (t_server_id mcp_server) id) eqn:E.
    + apply String.eqb_eq in E. subst id.
      unfold PyDict.mem in Hm. rewrite get_registry_get in Hm.
      rewrite Hs in Hm. discriminate.
    + apply String.eqb_neq in E. now rewrite get_set_other.
Qed.

End Registration.

(* ################################################################# *)
(** * More facts about dictionaries *)

Section DictEntries.

Context {V : Type}.

Implicit Types (d : PyDict.dict V) (k : string) (v : V).

Lemma get_In k v d : PyDict.get k d = Some v -> In (k, v) d.
Proof.
  induction d as [|[k' v'] d IH]; cbn; [discriminate|].
  destruct (String.eqb k k') eqn:E.
  - apply String.eqb_eq in E. subst. intros H. injection H as ->. now left.
  - intros H. right. now apply IH.
Qed.

Lemma In_get k v d : NoDup (PyDict.keys d) -> In (k, v) d -> PyDict.get k d = Some v.
Proof.
  induction d as [|[k' v'] d IH]; cbn; [tauto|].
  intros Hnd [Heq|Hin].
  - injection Heq as -> ->. now rewrite String.eqb_refl.
  - inversion Hnd as [|? ? Hnotin Hnd']; subst.
    destruct (String.eqb k k') eqn:E.
    + apply String.eqb_eq in E. subst k'. exfalso. apply Hnotin.
      change k with (fst (k, v)). now apply in_map.
    + now apply IH.
Qed.

Lemma In_set k v d (kv : string * V) :
  In kv (PyDict.set k v d) -> kv = (k, v) \/ In kv d.
Proof.
  induction d as [|[k' v'] d IH]; cbn.
  - intros [H|[]]. now left.
  - destruct (String.eqb k k') eqn:E; cbn.
    + apply String.eqb_eq in E. subst k'. intros [H|H]; auto.
    + intros [H|H]; auto. destruct (IH H); auto.
Qed.

Lemma set_absent k v d : PyDict.get k d = None -> PyDict.set k v d = d ++ [(k, v)].
Proof.
  induction d as [|[k' v'] d IH]; cbn; auto.
  destruct (String.eqb k k'); [discriminate|]. intros H. now rewrite IH.
Qed.

Lemma set_same k v d : PyDict.get k d = Some v -> PyDict.set k v d = d.
Proof.
  induction d as [|[k' v'] d IH]; cbn; [discriminate|].
  destruct (String.eqb k k') eqn:E.
  - intros H. injection H as ->. reflexivity.
  - intros H. now rewrite IH.
Qed.

Lemma remove_absent k d : PyDict.get k d = None -> PyDict.remove k d = d.
Proof.
  unfold PyDict.remove. induction d as [|[k' v'] d IH]; cbn; auto.
  destruct (String.eqb k k'); [discriminate|]. intros H. cbn. now rewrite IH.
Qed.

Lemma remove_set_absent k v d :
  PyDict.get k d = None -> PyDict.remove k (PyDict.set k v d) = d.
Proof.
  intros H. rewrite (set_absent k v d H). unfold PyDict.remove.
  rewrite filter_app. cbn. rewrite String.eqb_refl. cbn.
  rewrite app_nil_r. now apply remove_absent.
Qed.

Lemma NoDup_keys_set k v d :
  NoDup (PyDict.keys d) -> NoDup (PyDict.keys (PyDict.set k v d)).
Proof.
  intros Hnd. rewrite keys_set. destruct (PyDict.mem k d) eqn:E; auto.
  apply NoDup_app; auto.
  - constructor; [intros []|constructor].
  - intros a Ha [<-|[]]. apply mem_keys in Ha. congruence.
Qed.

Lemma NoDup_keys_remove k d :
  NoDup (PyDict.keys d) -> NoDup (PyDict.keys (PyDict.remove k d)).
Proof.
  intros Hnd. unfold PyDict.remove, PyDict.keys.
  rewrite <- (filter_map_swap (fun k0 => negb (String.eqb k k0)) fst d).
  now apply NoDup_filter.
Qed.

End DictEntries.

(* ################################################################# *)
(** * Partitions keyed by identifier *)

Lemma keyed_nil : keyed [].
Proof. split; [constructor|intros k s []]. Qed.

Lemma keyed_set (k : string) (s : MCPServer) (d : PyDict.dict MCPServer) :
  server_id s = k -> keyed d -> keyed (PyDict.set k s d).
Proof.
  intros Hk [Hnd Hall]. split; [now apply NoDup_keys_set|].
  intros k' s' Hin. apply In_set in Hin. destruct Hin as [Heq|Hin].
  - now injection Heq as -> ->.
  - now apply Hall.
Qed.

Lemma keyed_remove (k : string) (d : PyDict.dict MCPServer) :
  keyed d -> keyed (PyDict.remove k d).
Proof.
  intros [Hnd Hall]. split; [now apply NoDup_keys_remove|].
  intros k' s' Hin. unfold PyDict.remove in Hin. apply filter_In in Hin.
  now apply Hall.
Qed.

Lemma keyed_union (a b : PyDict.dict MCPServer) :
  keyed a -> keyed b -> keyed (PyDict.union a b).
Proof.
  intros [Ha Halla] [Hb Hallb]. split; [now apply NoDup_keys_union|].
  intros k s Hin. unfold PyDict.union in Hin. apply in_app_or in Hin.
  destruct Hin as [Hin|Hin].
  - apply in_map_iff in Hin. destruct Hin as ([k0 s0] & Heq & Hin0).
    cbn [fst snd] in Heq. injection Heq as -> Hs.
    destruct (PyDict.get k b) as [v|] eqn:Eb.
    + subst s. apply Hallb. now apply get_In.
    + subst s. now apply Halla.
  - apply filter_In in Hin. now apply Hallb.
Qed.

Lemma find_by_id_keyed (d : PyDict.dict MCPServer) (id : string) :
  (forall k s, In (k, s) d -> server_id s = k) ->
  find (fun server => String.eqb (server_id server) id) (PyDict.values d)
  = PyDict.get id d.
Proof.
  induction d as [|[k s] d IH]; intros Hall; cbn; auto.
  rewrite (Hall k s (or_introl eq_refl)).
  rewrite (String.eqb_sym k id).
  destruct (String.eqb id k); auto.
  apply IH. intros k' s' Hin. apply Hall. now right.
Qed.

Lemma well_keyed_init : well_keyed init.
Proof. split; apply keyed_nil. Qed.

Lemma well_keyed_add_update_server {W : World}
  (mcp_server : LiteLLM_MCPServerTable) (self : MCPServerManager) :
  well_keyed self -> well_keyed (add_update_server mcp_server self).
Proof.
  intros [Hr Hc]. unfold add_update_server.
  destruct (negb _); [|now split].
  split; cbn; auto. now apply keyed_set.
Qed.

Lemma well_keyed_remove_server
  (mcp_server : LiteLLM_MCPServerTable) (self : MCPServerManager) :
  well_keyed self -> well_keyed (snd (remove_server mcp_server self)).
Proof.
  intros [Hr Hc].
  unfold remove_server, bind, get_self, ret, del_registry, PyDict.del.
  destruct (t_alias mcp_server) as [alias|];
    repeat match goal with
           | |- context [if ?b then _ else _] => destruct b
           end; cbn [snd]; try (now split);
    (split; cbn; [now apply keyed_remove|assumption]).
Qed.

(** A loop keeps what each of its steps keeps, whatever the outcome. *)
Lemma for_fold_keeps {X B : Type} (P : MCPServerManager -> Prop)
  (body : B -> X -> M B) :
  (forall acc x self, P self -> P (snd (body acc x self))) ->
  forall xs acc self, P self -> P (snd (for_fold body xs acc self)).
Proof.
  intros Hbody. induction xs as [|x xs IH]; intros acc self HP; [exact HP|].
  rewrite for_fold_cons. pose proof (Hbody acc x self HP) as H1.
  destruct (body acc x self) as [[b|e] self1]; cbn [snd] in *; auto.
Qed.

Lemma well_keyed_load_server_from_config {U : Utils}
  (entry : string * ServerConfig) (self : MCPServerManager) :
  well_keyed self -> well_keyed (snd (load_server_from_config entry self)).
Proof.
  intros [Hr Hc]. destruct entry as [n c].
  unfold load_server_from_config, bind, lift, modify.
  destruct (validate_mcp_server_name n) as [[]|e]; cbn [snd]; [|now split].
  split; cbn; auto. now apply keyed_set.
Qed.

Lemma well_keyed_load_servers_from_config {U : Utils}
  (mcp_servers_config : PyDict.dict ServerConfig) (self : MCPServerManager) :
  well_keyed self ->
  well_keyed (snd (load_servers_from_config mcp_servers_config self)).
Proof.
  intros Hwk. unfold load_servers_from_config, bind, for_each, PyDict.items.
  pose proof (for_fold_keeps well_keyed
                (fun (_ : unit) x => load_server_from_config x)
                (fun _ x s => well_keyed_load_server_from_config x s)
                mcp_servers_config tt self Hwk) as H.
  destruct (for_fold _ mcp_servers_config tt self) as [[[]|e] s]; exact H.
Qed.

Lemma get_mcp_server_by_id_keyed (self : MCPServerManager) (id : string) :
  well_keyed self ->
  get_mcp_server_by_id self id = PyDict.get id (get_registry self).
Proof.
  intros [Hr Hc]. unfold get_mcp_server_by_id. apply find_by_id_keyed.
  apply (keyed_union _ _ Hc Hr).
Qed.

(** X6: registering a row with a new identifier and removing it again
    gives the manager back as it was (the alias of the row being the
    identifier itself or no key of the registry). *)
Theorem add_then_remove_restores {W : World}
  (mcp_server : LiteLLM_MCPServerTable) (self : MCPServerManager) :
  PyDict.mem (t_server_id mcp_server) (get_registry self) = false ->
  (forall alias, t_alias mcp_server = Some alias ->
                 alias = t_server_id mcp_server
                 \/ PyDict.mem alias (get_registry self) = false) ->
  remove_server mcp_server (add_update_server mcp_server self)
  = (Return tt, self).
Proof.
  intros Hnew Halias.
  pose proof Hnew as Hdyn. rewrite get_registry_mem in Hdyn.
  apply Bool.orb_false_iff in Hdyn. destruct Hdyn as [_ Hdyn].
  assert (Hget : PyDict.get (t_server_id mcp_server) (registry self) = None).
  { unfold PyDict.mem in Hdyn.
    destruct (PyDict.get (t_server_id mcp_server) (registry self));
      [discriminate|reflexivity]. }
  assert (Hadd : add_update_server mcp_server self
                 = set_registry self
                     (PyDict.set (t_server_id mcp_server)
                                 (server_of_table mcp_server) (registry self))).
  { unfold add_update_server. now rewrite Hnew. }
  rewrite Hadd.
  set (self1 := set_registry self _).
  assert (Hin : PyDict.mem (t_server_id mcp_server) (registry self1) = true).
  { cbn. apply mem_set_same. }
  assert (Hdel : del_registry (t_server_id mcp_server) self1 = (Return tt, self)).
  { unfold del_registry, PyDict.del. rewrite Hin. cbn [registry self1 set_registry].
    rewrite (remove_set_absent _ _ _ Hget). destruct self; reflexivity. }
  unfold remove_server, bind, get_self, ret.
  rewrite (get_registry_mem self1 (t_server_id mcp_server)), Hin,
    Bool.orb_true_r.
  destruct (t_alias mcp_server) as [alias|] eqn:Ea; [|exact Hdel].
  destruct (Halias alias eq_refl) as [->|Hno].
  - rewrite (get_registry_mem self1 (t_server_id mcp_server)), Hin,
      Bool.orb_true_r. exact Hdel.
  - destruct (String.eqb alias (t_server_id mcp_server)) eqn:E.
    + apply String.eqb_eq in E. subst alias.
      rewrite (get_registry_mem self1 (t_server_id mcp_server)), Hin,
        Bool.orb_true_r. exact Hdel.
    + apply String.eqb_neq in E.
      assert (Hsame : PyDict.mem alias (get_registry self1) = false).
      { rewrite get_registry_mem in *. cbn [registry self1 set_registry
                                             config_mcp_servers].
        unfold PyDict.mem in *. rewrite get_set_other by congruence.
        exact Hno. }
      rewrite Hsame. exact Hdel.
Qed.

Lemma add_then_remove_restores_witness :
  remove_server Operations.row_mail
    (@add_update_server Scenario.world Operations.row_mail Scenario.loaded)
  = (Return tt, Scenario.loaded).
Proof.
  exact (@add_then_remove_restores
           Scenario.world Operations.row_mail Scenario.loaded
           ltac:(vm_compute; reflexivity)
           ltac:(intros alias Ha; injection Ha as <-; right;
                 vm_compute; reflexivity)).
Defined.

(** X7: the manager stays keyed by identifier: in a fresh manager, and
    after every registration, removal and configuration load on a manager
    that is, whatever their outcome, both partitions hold each key once and
    every record under its own [server_id]. *)
Theorem well_keyed_is_invariant {U : Utils} {W : World} :
  well_keyed init
  /\ (forall mcp_server self,
         well_keyed self -> well_keyed (add_update_server mcp_server self))
  /\ (forall mcp_server self,
         well_keyed self -> well_keyed (snd (remove_server mcp_server self)))
  /\ (forall mcp_servers_config self,
         well_keyed self ->
         well_keyed (snd (load_servers_from_config mcp_servers_config self))).
Proof.
  split; [exact well_keyed_init|].
  split; [exact well_keyed_add_update_server|].
  split; [exact well_keyed_remove_server|].
  exact well_keyed_load_servers_from_config.
Qed.

Lemma well_keyed_is_invariant_witness :
  well_keyed
    (snd (remove_server Operations.row_mail
            (@add_update_server Scenario.world Operations.row_mail
               (snd (Scenario.load Scenario.mcp_servers_config init))))).
Proof.
  destruct (@well_keyed_is_invariant SpecUtils.utils Scenario.world)
    as (H0 & Hadd & Hrem & Hload).
  apply Hrem, Hadd, Hload, H0.
Defined.

(** X8: on a manager keyed by identifier, looking a server up by
    scanning the registry for its [server_id] is looking the identifier up
    as a key: [get_mcp_server_by_id] returns the record [get_registry]
    holds under the identifier, and nothing when it holds none. *)
Theorem get_mcp_server_by_id_is_lookup
  (self : MCPServerManager) (id : string) :
  well_keyed self ->
  get_mcp_server_by_id self id = PyDict.get id (get_registry self)
  /\ (forall server,
         get_mcp_server_by_id self id = Some server -> server_id server = id).
Proof.
  intros Hwk. split; [now apply get_mcp_server_by_id_keyed|].
  intros server H. unfold get_mcp_server_by_id in H.
  apply find_some in H. now apply String.eqb_eq.
Qed.

Lemma get_mcp_server_by_id_is_lookup_witness :
  get_mcp_server_by_id
    (snd (Scenario.load Scenario.mcp_servers_config init)) Scenario.id_docs
  = PyDict.get Scenario.id_docs
      (get_registry (snd (Scenario.load Scenario.mcp_servers_config init))).
Proof.
  exact (proj1 (get_mcp_server_by_id_is_lookup
                  (snd (Scenario.load Scenario.mcp_servers_config init))
                  Scenario.id_docs
                  (@well_keyed_load_servers_from_config
                     SpecUtils.utils Scenario.mcp_servers_config init
                     well_keyed_init))).
Defined.

(* ################################################################# *)
(** * Loading, again *)

Section Reloading.

Context {U : Utils}.

Lemma update_cons {V : Type} (a : PyDict.dict V) (kv : string * V)
  (b : PyDict.dict V) :
  PyDict.update a (kv :: b) = PyDict.update (PyDict.set (fst kv) (snd kv) a) b.
Proof. reflexivity. Qed.

(** Assigning again what a dictionary already holds changes nothing. *)
Lemma update_same {V : Type} (d b : PyDict.dict V) :
  (forall k v, In (k, v) b -> PyDict.get k d = Some v) ->
  PyDict.update d b = d.
Proof.
  induction b as [|[k v] b IH]; intros H; [reflexivity|].
  rewrite update_cons. cbn [fst snd].
  rewrite (set_same k v d (H k v (or_introl eq_refl))).
  apply IH. intros k' v' Hin. apply H. now right.
Qed.

(** The manager after loading well-formed entries: the static partition
    updated, entry after entry, with the record of each. *)
Lemma load_valid_state (entries : list (string * ServerConfig)) :
  Forall (fun entry => validate_mcp_server_name (fst entry) = Return tt)
         entries ->
  forall self : MCPServerManager,
    load_servers_from_config entries self =
    (Return tt,
     set_config_mcp_servers self
       (PyDict.update (config_mcp_servers self) (map config_item entries))).
Proof.
  unfold load_servers_from_config, bind, for_each, PyDict.items,
    initialize_tool_name_to_mcp_server_name_mapping, ret.
  induction 1 as [|[n c] entries Hv _ IH]; intros self.
  - cbn. destruct self; reflexivity.
  - rewrite for_fold_cons, (load_server_from_config_valid n c self Hv).
    specialize (IH (set_config_mcp_servers self
                      (PyDict.set (server_id (server_of_config n c))
                                  (server_of_config n c)
                                  (config_mcp_servers self)))).
    destruct (for_fold _ entries tt _) as [[[]|e] s]; [|discriminate].
    injection IH as ->. reflexivity.
Qed.

(** X9: a configuration of well-formed entries with pairwise distinct
    identifiers loads completely: the call returns, the dynamic partition
    and the index are untouched, every entry is stored in the static
    partition under its identifier with the record built from it, and the
    other keys of the static partition keep their records. *)
Theorem load_servers_from_config_loads_all
  (entries : list (string * ServerConfig)) (self : MCPServerManager) :
  Forall (fun entry => validate_mcp_server_name (fst entry) = Return tt)
         entries ->
  NoDup (map (fun entry => fst (config_item entry)) entries) ->
  let self' := snd (load_servers_from_config entries self) in
  fst (load_servers_from_config entries self) = Return tt
  /\ registry self' = registry self
  /\ tool_name_to_mcp_server_name_mapping self'
     = tool_name_to_mcp_server_name_mapping self
  /\ (forall n c, In (n, c) entries ->
        PyDict.get (server_id (server_of_config n c)) (config_mcp_servers self')
        = Some (server_of_config n c))
  /\ (forall k, ~ In k (map (fun entry => fst (config_item entry)) entries) ->
        PyDict.get k (config_mcp_servers self')
        = PyDict.get k (config_mcp_servers self)).
Proof.
  intros Hv Hnd self'. unfold self'.
  rewrite (load_valid_state entries Hv self). cbn [fst snd].
  assert (Hkeys : PyDict.keys (map config_item entries)
                  = map (fun entry => fst (config_item entry)) entries).
  { unfold PyDict.keys. now rewrite map_map. }
  assert (Hnd' : NoDup (PyDict.keys (map config_item entries)))
    by now rewrite Hkeys.
  repeat split.
  - intros n c Hin. cbn [config_mcp_servers set_config_mcp_servers].
    rewrite (get_update _ _ _ Hnd').
    rewrite (In_get _ (server_of_config n c) _ Hnd'); [reflexivity|].
    change (server_id (server_of_config n c), server_of_config n c)
      with (config_item (n, c)).
    now apply in_map.
  - intros k Hk. cbn [config_mcp_servers set_config_mcp_servers].
    rewrite (get_update _ _ _ Hnd').
    rewrite <- Hkeys in Hk. apply get_none_keys in Hk. now rewrite Hk.
Qed.

(** X10: loading the same well-formed configuration a second time
    changes nothing. *)
Theorem load_servers_from_config_twice
  (entries : list (string * ServerConfig)) (self : MCPServerManager) :
  Forall (fun entry => validate_mcp_server_name (fst entry) = Return tt)
         entries ->
  NoDup (map (fun entry => fst (config_item entry)) entries) ->
  load_servers_from_config entries
    (snd (load_servers_from_config entries self))
  = (Return tt, snd (load_servers_from_config entries self)).
Proof.
  intros Hv Hnd.
  rewrite (load_valid_state entries Hv self). cbn [snd].
  rewrite (load_valid_state entries Hv _). f_equal.
  cbn [config_mcp_servers set_config_mcp_servers].
  assert (Hnd' : NoDup (PyDict.keys (map config_item entries))).
  { unfold PyDict.keys. now rewrite map_map. }
  rewrite (update_same
             (PyDict.update (config_mcp_servers self) (map config_item entries))
             (map config_item entries)).
  - reflexivity.
  - intros k v Hin. rewrite (get_update _ _ _ Hnd').
    now rewrite (In_get k v _ Hnd' Hin).
Qed.

End Reloading.

Lemma Scenario_config_ids_distinct :
  NoDup (map (fun entry => fst (config_item entry))
             Scenario.mcp_servers_config).
Proof.
  vm_compute. repeat constructor; cbn; intuition discriminate.
Qed.

Lemma Scenario_config_valid :
  Forall (fun entry => SpecUtils.validate_mcp_server_name (fst entry)
                       = Return tt)
         Scenario.mcp_servers_config.
Proof. repeat constructor. Qed.

Lemma load_servers_from_config_loads_all_witness :
  fst (Scenario.load Scenario.mcp_servers_config init) = Return tt
  /\ PyDict.get (server_id (server_of_config "docs" Scenario.cfg_docs))
       (config_mcp_servers
          (snd (Scenario.load Scenario.mcp_servers_config init)))
     = Some (server_of_config "docs" Scenario.cfg_docs).
Proof.
  pose proof (@load_servers_from_config_loads_all
                SpecUtils.utils Scenario.mcp_servers_config init
                Scenario_config_valid Scenario_config_ids_distinct) as H.
  cbv zeta in H. destruct H as (H1 & _ & _ & H4 & _).
  split; [exact H1|].
  apply (H4 "docs" Scenario.cfg_docs). right. right. now left.
Defined.

Lemma load_servers_from_config_twice_witness :
  Scenario.load Scenario.mcp_servers_config
    (snd (Scenario.load Scenario.mcp_servers_config init))
  = (Return tt, snd (Scenario.load Scenario.mcp_servers_config init)).
Proof.
  exact (@load_servers_from_config_twice
           SpecUtils.utils Scenario.mcp_servers_config init
           Scenario_config_valid Scenario_config_ids_distinct).
Defined.

(* ################################################################# *)
(** * Hydration *)

Section HydrationFacts.

Context {W : World} {D : Database}.

Lemma for_each_modify {X : Type} (f : X -> MCPServerManager -> MCPServerManager)
  (xs : list X) (self : MCPServerManager) :
  for_each (fun x => modify (f x)) xs self
  = (Return tt, fold_left (fun s x => f x s) xs self).
Proof.
  unfold for_each. revert self.
  induction xs as [|x xs IH]; intros self; [reflexivity|].
  rewrite for_fold_cons. unfold modify at 1. apply IH.
Qed.

(** What an identifier resolves to after one registration. *)
Lemma add_update_server_get (mcp_server : LiteLLM_MCPServerTable)
  (self : MCPServerManager) (id : string) :
  PyDict.get id (get_registry (add_update_server mcp_server self)) =
  match PyDict.get id (get_registry self) with
  | Some s => Some s
  | None =>
      if String.eqb (t_server_id mcp_server) id
      then Some (server_of_table mcp_server) else None
  end.
Proof.
  destruct (PyDict.mem (t_server_id mcp_server) (get_registry self)) eqn:Hm.
  - rewrite (add_update_server_known _ _ Hm).
    destruct (PyDict.get id (get_registry self)) eqn:Hg; auto.
    destruct (String.eqb (t_server_id mcp_server) id) eqn:E; auto.
    apply String.eqb_eq in E. subst id. unfold PyDict.mem in Hm.
    now rewrite Hg in Hm.
  - destruct (String.eqb (t_server_id mcp_server) id) eqn:E.
    + apply String.eqb_eq in E. subst id.
      rewrite (add_update_server_new _ _ Hm).
      unfold PyDict.mem in Hm.
      destruct (PyDict.get (t_server_id mcp_server) (get_registry self));
        [discriminate|reflexivity].
    + apply String.eqb_neq in E. unfold add_update_server. rewrite Hm.
      cbn [negb]. rewrite !get_registry_get.
      cbn [registry set_registry config_mcp_servers].
      rewrite get_set_other by exact E.
      destruct (PyDict.get id (registry self)); auto.
      destruct (PyDict.get id (config_mcp_servers self)); auto.
Qed.

Lemma add_update_servers_get (rows : list LiteLLM_MCPServerTable)
  (self : MCPServerManager) (id : string) :
  PyDict.get id
    (get_registry (fold_left (fun s row => add_update_server row s) rows self))
  = match PyDict.get id (get_registry self) with
    | Some s => Some s
    | None => option_map server_of_table (first_row id rows)
    end.
Proof.
  revert self. induction rows as [|row rows IH]; intros self; cbn [fold_left].
  - cbn. destruct (PyDict.get id (get_registry self)); reflexivity.
  - rewrite IH, add_update_server_get. unfold first_row. cbn [find].
    destruct (PyDict.get id (get_registry self)); auto.
    destruct (String.eqb (t_server_id row) id); reflexivity.
Qed.

Lemma add_update_servers_frame (rows : list LiteLLM_MCPServerTable)
  (self : MCPServerManager) :
  config_mcp_servers
    (fold_left (fun s row => add_update_server row s) rows self)
  = config_mcp_servers self
  /\ tool_name_to_mcp_server_name_mapping
       (fold_left (fun s row => add_update_server row s) rows self)
     = tool_name_to_mcp_server_name_mapping self.
Proof.
  revert self. induction rows as [|row rows IH]; intros self; cbn [fold_left];
    [now split|].
  destruct (IH (add_update_server row self)) as [Hc Hm].
  rewrite Hc, Hm. unfold add_update_server. destruct (negb _); now split.
Qed.

(** X11: hydration from the database.  Without a database the error of
    [get_prisma_client_or_throw] is raised and the manager is untouched.
    With one, every row is offered to [add_update_server] in order: the
    identifiers the registry already resolved keep their records, a new
    identifier gets the record of the first row that carries it, and the
    static partition and the index are untouched. *)
Theorem hydration_adds_first_rows_only (self : MCPServerManager) :
  (forall e,
      get_prisma_client_or_throw
        "Database not connected. Connect a database to your proxy" = Raise e ->
      _add_mcp_servers_from_db_to_in_memory_registry self = (Raise e, self))
  /\
  (forall prisma_client rows,
      get_prisma_client_or_throw
        "Database not connected. Connect a database to your proxy"
      = Return prisma_client ->
      get_all_mcp_servers prisma_client = Return rows ->
      let self' := snd (_add_mcp_servers_from_db_to_in_memory_registry self) in
      fst (_add_mcp_servers_from_db_to_in_memory_registry self) = Return tt
      /\ config_mcp_servers self' = config_mcp_servers self
      /\ tool_name_to_mcp_server_name_mapping self'
         = tool_name_to_mcp_server_name_mapping self
      /\ forall id,
          PyDict.get id (get_registry self') =
          match PyDict.get id (get_registry self) with
          | Some s => Some s
          | None => option_map server_of_table (first_row id rows)
          end).
Proof.
  unfold _add_mcp_servers_from_db_to_in_memory_registry, bind, lift.
  split.
  - intros e He. now rewrite He.
  - intros prisma_client rows Hc Hrows. rewrite Hc, Hrows, for_each_modify.
    cbn [fst snd].
    destruct (add_update_servers_frame rows self) as [Hcfg Hidx].
    repeat split; auto. intros id. apply add_update_servers_get.
Qed.

End HydrationFacts.

Lemma hydration_adds_first_rows_only_witness :
  @_add_mcp_servers_from_db_to_in_memory_registry
    Scenario.world Operations.no_database Scenario.loaded
  = (Raise (Exception
              "Database not connected. Connect a database to your proxy"),
     Scenario.loaded)
  /\ PyDict.get "mail-1"
       (get_registry
          (snd (@_add_mcp_servers_from_db_to_in_memory_registry
                  Scenario.world Operations.database Scenario.loaded)))
     = Some (@server_of_table Scenario.world Operations.row_mail)
  /\ PyDict.get Scenario.id_files
       (get_registry
          (snd (@_add_mcp_servers_from_db_to_in_memory_registry
                  Scenario.world Operations.database Scenario.loaded)))
     = Some (server_of_config "files" Scenario.cfg_files).
Proof.
  split; [|split].
  - exact (proj1 (@hydration_adds_first_rows_only
                    Scenario.world Operations.no_database Scenario.loaded)
                 _ eq_refl).
  - etransitivity.
    + exact (proj2 (proj2 (proj2
               (proj2 (@hydration_adds_first_rows_only
                         Scenario.world Operations.database Scenario.loaded)
                      tt _ eq_refl eq_refl))) "mail-1").
    + vm_compute. reflexivity.
  - etransitivity.
    + exact (proj2 (proj2 (proj2
               (proj2 (@hydration_adds_first_rows_only
                         Scenario.world Operations.database Scenario.loaded)
                      tt _ eq_refl eq_refl))) Scenario.id_files).
    + vm_compute. reflexivity.
Defined.

(* ################################################################# *)
(** * Frames *)

Lemma index_only_refl (self : MCPServerManager) : index_only self self.
Proof. repeat split; auto. Qed.

Lemma index_only_trans (a b c : MCPServerManager) :
  index_only a b -> index_only b c -> index_only a c.
Proof.
  intros (Hr1 & Hc1 & Hk1) (Hr2 & Hc2 & Hk2).
  repeat split; try congruence. auto.
Qed.

Lemma index_only_set_mapping (self : MCPServerManager) (k v : string) :
  index_only self
    (set_mapping self
       (PyDict.set k v (tool_name_to_mcp_server_name_mapping self))).
Proof.
  repeat split. intros k' Hk'. cbn. now apply mem_set_other.
Qed.

(** A loop whose steps only write to the index only writes to the index. *)
Lemma for_fold_index_only {X B : Type} (body : B -> X -> M B) :
  (forall acc x self, index_only self (snd (body acc x self))) ->
  forall xs acc self, index_only self (snd (for_fold body xs acc self)).
Proof.
  intros Hbody xs acc self.
  apply (for_fold_keeps (index_only self) body); [|apply index_only_refl].
  intros acc' x s Hs. exact (index_only_trans _ _ _ Hs (Hbody acc' x s)).
Qed.

Section AggregatorFrames.

Context {U : Utils} {W : World}.

Lemma server_named_ext (self self' : MCPServerManager) (alias : string) :
  index_only self self' -> server_named self' alias = server_named self alias.
Proof.
  intros (Hr & Hc & _). unfold server_named, get_registry. now rewrite Hr, Hc.
Qed.

Lemma prefix_tool_index_only (server : MCPServer) (acc : list MCPTool)
  (tool : MCPTool) (self : MCPServerManager) :
  index_only self (snd (prefix_tool server acc tool self)).
Proof.
  unfold prefix_tool, bind, modify, ret. cbn [snd].
  eapply index_only_trans; [apply index_only_set_mapping|].
  apply (index_only_set_mapping
           (set_mapping self
              (PyDict.set (tool_name tool) (name server)
                          (tool_name_to_mcp_server_name_mapping self)))).
Qed.

Lemma _get_tools_from_server_index_only (server : MCPServer)
  (mcp_auth_header : option string) (self : MCPServerManager) :
  index_only self (snd (_get_tools_from_server server mcp_auth_header self)).
Proof.
  unfold _get_tools_from_server, try_except_Exception, bind, lift.
  destruct (MCPClient_list_tools _) as [tools|e].
  - pose proof (for_fold_index_only (prefix_tool server)
                  (prefix_tool_index_only server) tools [] self) as H.
    destruct (for_fold (prefix_tool server) tools [] self) as [[l|e] s];
      cbn [snd] in *; auto.
    destruct (is_Exception e); exact H.
  - destruct (is_Exception e); apply index_only_refl.
Qed.

Lemma list_tools_step_index_only (mcp_auth_header : option string)
  (acc : list MCPTool) (id : string) (self : MCPServerManager) :
  index_only self (snd (list_tools_step mcp_auth_header acc id self)).
Proof.
  unfold list_tools_step, bind at 1, get_self.
  destruct (get_mcp_server_by_id self id) as [server|];
    [|apply index_only_refl].
  unfold try_except_Exception, bind, ret.
  pose proof (_get_tools_from_server_index_only server mcp_auth_header self)
    as H.
  destruct (_get_tools_from_server server mcp_auth_header self) as [[l|e] s];
    cbn [snd] in *; auto.
  destruct (is_Exception e); exact H.
Qed.

Lemma warm_up_server_index_only (server : MCPServer) (self : MCPServerManager) :
  index_only self (snd (warm_up_server server self)).
Proof.
  unfold warm_up_server, bind.
  pose proof (_get_tools_from_server_index_only server None self) as H.
  destruct (_get_tools_from_server server None self) as [[tools|e] s];
    cbn [snd] in *; auto.
  eapply index_only_trans; [exact H|].
  apply for_fold_index_only. intros _ tool s'. unfold modify. cbn [snd].
  eapply index_only_trans; [apply index_only_set_mapping|].
  apply (index_only_set_mapping
           (set_mapping s'
              (PyDict.set _ (name server)
                          (tool_name_to_mcp_server_name_mapping s')))).
Qed.

(** X12: listing and warm-up write to the tool index only.  Whatever
    the upstreams answer and whatever the outcome, [list_tools],
    [get_tools_for_server] and the warm-up leave both partitions of the
    registry as they are and remove no name from the index. *)
Theorem listing_writes_index_only
  (user_api_key_auth : option UserAPIKeyAuth)
  (mcp_auth_header : option string) (id : string) (self : MCPServerManager) :
  index_only self (snd (list_tools user_api_key_auth mcp_auth_header self))
  /\ index_only self (snd (get_tools_for_server id self))
  /\ index_only self
       (snd (_initialize_tool_name_to_mcp_server_name_mapping self)).
Proof.
  split; [|split].
  - unfold list_tools, bind.
    pose proof (get_allowed_mcp_servers_pure user_api_key_auth self) as Hp.
    destruct (get_allowed_mcp_servers user_api_key_auth self) as [[l|e] s];
      cbn [snd] in *; subst s; [|apply index_only_refl].
    apply for_fold_index_only. apply list_tools_step_index_only.
  - unfold get_tools_for_server, bind, get_self.
    destruct (get_mcp_server_by_id self id);
      [apply _get_tools_from_server_index_only|apply index_only_refl].
  - unfold _initialize_tool_name_to_mcp_server_name_mapping, bind, get_self,
      for_each.
    apply for_fold_index_only. intros _ server s.
    apply warm_up_server_index_only.
Qed.


(** X14: cancellation is not swallowed.  [_get_tools_from_server]
    re-raises the [CancelledError] of its upstream, and [list_tools]
    raises it at the first cancelled upstream of the allow-list, the
    upstreams before it having answered or failed. *)
Theorem listing_propagates_cancellation
  (user_api_key_auth : option UserAPIKeyAuth)
  (mcp_auth_header : option string) (self : MCPServerManager)
  (before after : list string) (id : string) (server : MCPServer) :
  MCPClient_list_tools (_create_mcp_client server mcp_auth_header)
  = Raise CancelledError ->
  _get_tools_from_server server mcp_auth_header self
  = (Raise CancelledError, self)
  /\ (fst (get_allowed_mcp_servers user_api_key_auth self)
      = Return (before ++ id :: after) ->
      get_mcp_server_by_id self id = Some server ->
      (forall id' server',
          In id' before ->
          get_mcp_server_by_id self id' = Some server' ->
          MCPClient_list_tools (_create_mcp_client server' mcp_auth_header)
          <> Raise CancelledError) ->
      fst (list_tools user_api_key_auth mcp_auth_header self)
      = Raise CancelledError).
Proof.
  intros Hcancel.
  assert (Hone : forall s,
             _get_tools_from_server server mcp_auth_header s
             = (Raise CancelledError, s)).
  { intros s. unfold _get_tools_from_server, try_except_Exception, bind, lift.
    now rewrite Hcancel. }
  split; [apply Hone|].
  intros Hallowed Hres Hbefore. unfold list_tools, bind.
  pose proof (get_allowed_mcp_servers_pure user_api_key_auth self) as Hpure.
  destruct (get_allowed_mcp_servers user_api_key_auth self) as [o s].
  cbn [fst snd] in *. subst s o.
  rewrite for_fold_app.
  destruct (list_tools_loop_run mcp_auth_header before [] self Hbefore)
    as (s1 & Hrun & Hr & Hc).
  rewrite Hrun, for_fold_cons.
  unfold list_tools_step at 1, bind at 1, get_self.
  rewrite (get_mcp_server_by_id_ext self s1 id Hr Hc), Hres.
  unfold try_except_Exception, bind. rewrite Hone. reflexivity.
Qed.

(** X15: a failure of the authorization oracle is not isolated: it is
    raised by [get_allowed_mcp_servers] and by [list_tools], before any
    upstream is contacted, and the manager is untouched. *)
Theorem listing_propagates_oracle_failure
  (user_api_key_auth : option UserAPIKeyAuth)
  (mcp_auth_header : option string) (self : MCPServerManager) (e : exn) :
  MCPRequestHandler_get_allowed_mcp_servers user_api_key_auth = Raise e ->
  get_allowed_mcp_servers user_api_key_auth self = (Raise e, self)
  /\ list_tools user_api_key_auth mcp_auth_header self = (Raise e, self).
Proof.
  intros He.
  assert (H : get_allowed_mcp_servers user_api_key_auth self = (Raise e, self)).
  { unfold get_allowed_mcp_servers, bind, lift. now rewrite He. }
  split; [exact H|]. unfold list_tools, bind. now rewrite H.
Qed.

End AggregatorFrames.


Lemma listing_propagates_cancellation_witness :
  fst (@list_tools SpecUtils.utils Operations.world_cancel None None
                   Scenario.loaded)
  = Raise CancelledError.
Proof.
  refine (proj2 (@listing_propagates_cancellation
                   SpecUtils.utils Operations.world_cancel None None
                   Scenario.loaded
                   [Scenario.id_down; Scenario.id_files] []
                   Scenario.id_docs
                   (server_of_config "docs" Scenario.cfg_docs)
                   ltac:(vm_compute; reflexivity))
                ltac:(vm_compute; reflexivity)
                ltac:(vm_compute; reflexivity) _).
  intros id' server' [<-|[<-|[]]] Hres; vm_compute in Hres;
    injection Hres as <-; vm_compute; discriminate.
Defined.

Lemma listing_propagates_oracle_failure_witness :
  @list_tools SpecUtils.utils Operations.world_denied (Some "team-a") None
              Scenario.loaded
  = (Raise (Exception "authorization backend unavailable"), Scenario.loaded).
Proof.
  exact (proj2 (@listing_propagates_oracle_failure
                  SpecUtils.utils Operations.world_denied (Some "team-a") None
                  Scenario.loaded
                  (Exception "authorization backend unavailable") eq_refl)).
Defined.

(* ################################################################# *)
(** * The index after a listing, and routing by it *)

Section IndexAfterListing.

Context {U : Utils} {W : World}.

Lemma get_index_after (server : MCPServer) (tools : list MCPTool)
  (index : PyDict.dict string) (k : string) :
  PyDict.get k (index_after server tools index) =
  if existsb (String.eqb k) (listed_names server tools)
  then Some (name server) else PyDict.get k index.
Proof.
  unfold index_after. revert index.
  induction tools as [|tool tools IH]; intros index; [reflexivity|].
  cbn [fold_left listed_names flat_map app existsb]. rewrite IH.
  fold (listed_names server tools).
  destruct (existsb (String.eqb k) (listed_names server tools));
    [now rewrite !Bool.orb_true_r|].
  rewrite !Bool.orb_false_r.
  set (p := add_server_prefix_to_tool_name (tool_name tool) (name server)).
  destruct (String.eqb k p) eqn:Ep.
  - apply String.eqb_eq in Ep. subst k. rewrite get_set_same.
    now rewrite Bool.orb_true_r.
  - apply String.eqb_neq in Ep. rewrite get_set_other by congruence.
    rewrite Bool.orb_false_r.
    destruct (String.eqb k (tool_name tool)) eqn:Er.
    + apply String.eqb_eq in Er. subst k. apply get_set_same.
    + apply String.eqb_neq in Er. now rewrite get_set_other by congruence.
Qed.

Lemma prefix_tools_state (server : MCPServer) (tools acc : list MCPTool)
  (self : MCPServerManager) :
  for_fold (prefix_tool server) tools acc self
  = (Return (acc ++ map (prefixed server) tools),
     set_mapping self
       (index_after server tools (tool_name_to_mcp_server_name_mapping self))).
Proof.
  unfold index_after. revert acc self.
  induction tools as [|tool tools IH]; intros acc self.
  - cbn. rewrite app_nil_r. destruct self; reflexivity.
  - rewrite for_fold_cons. unfold prefix_tool at 1, bind, modify, ret.
    rewrite IH. cbn [map fold_left]. rewrite <- app_assoc. reflexivity.
Qed.

Lemma _get_tools_from_server_state (server : MCPServer)
  (mcp_auth_header : option string) (tools : list MCPTool)
  (self : MCPServerManager) :
  MCPClient_list_tools (_create_mcp_client server mcp_auth_header)
  = Return tools ->
  _get_tools_from_server server mcp_auth_header self
  = (Return (map (prefixed server) tools),
     set_mapping self
       (index_after server tools (tool_name_to_mcp_server_name_mapping self))).
Proof.
  intros Htools. unfold _get_tools_from_server, try_except_Exception, bind, lift.
  rewrite Htools, prefix_tools_state. reflexivity.
Qed.

Lemma In_existsb_eqb (k : string) (l : list string) :
  existsb (String.eqb k) l = true <-> In k l.
Proof.
  rewrite existsb_exists. split.
  - intros (x & Hin & Heq). apply String.eqb_eq in Heq. now subst.
  - intros Hin. exists k. split; [exact Hin|apply String.eqb_refl].
Qed.


(** X17: listing then routing.  After a successful listing of a server
    that is the first of the registry under its normalized name, a call by
    the prefixed name of a listed tool, which the codec decomposes into
    the raw name and the name of the server, is dispatched to that server
    under the raw name; and so is a call by the raw name itself when the
    codec finds no prefix in it. *)
Theorem listed_tools_route_to_their_server
  (server : MCPServer) (listing_header call_header : option string)
  (tools : list MCPTool) (tool : MCPTool) (arguments : json)
  (user_api_key_auth : option UserAPIKeyAuth) (self : MCPServerManager) :
  MCPClient_list_tools (_create_mcp_client server listing_header)
  = Return tools ->
  In tool tools ->
  server_named self (name server) = Some server ->
  let self' := snd (_get_tools_from_server server listing_header self) in
  let qualified :=
    add_server_prefix_to_tool_name (tool_name tool) (name server) in
  (get_server_name_prefix_tool_mcp qualified = (tool_name tool, name server) ->
   call_tool qualified arguments user_api_key_auth call_header self'
   = (MCPClient_call_tool (_create_mcp_client server call_header)
                          (mkParams (tool_name tool) arguments), self'))
  /\ (get_server_name_prefix_tool_mcp (tool_name tool) = (tool_name tool, "") ->
      call_tool (tool_name tool) arguments user_api_key_auth call_header self'
      = (MCPClient_call_tool (_create_mcp_client server call_header)
                             (mkParams (tool_name tool) arguments), self')).
Proof.
  intros Htools Hin Hfirst self' qualified.
  assert (Hframe : index_only self self')
    by apply _get_tools_from_server_index_only.
  assert (Hidx : forall k, In k (listed_names server tools) ->
             PyDict.get k (tool_name_to_mcp_server_name_mapping self')
             = Some (name server)).
  { intros k Hk. unfold self'.
    rewrite (_get_tools_from_server_state _ _ _ _ Htools). cbn.
    rewrite get_index_after. apply In_existsb_eqb in Hk. now rewrite Hk. }
  assert (Hnames : In (tool_name tool) (listed_names server tools)
                   /\ In qualified (listed_names server tools)).
  { unfold listed_names. split; apply in_flat_map; exists tool;
      (split; [exact Hin|cbn; auto]). }
  assert (Hres : forall n, In n (listed_names server tools) ->
             _get_mcp_server_from_tool_name self' n = Some server).
  { intros n Hn. unfold _get_mcp_server_from_tool_name.
    now rewrite (Hidx n Hn), (server_named_ext self self' _ Hframe), Hfirst. }
  split; intros Hcodec.
  - rewrite (call_tool_resolved _ _ _ _ _ _ (Hres _ (proj2 Hnames))).
    cbv zeta. rewrite Hcodec. cbn [fst snd].
    now rewrite String.eqb_refl, Bool.andb_false_r.
  - rewrite (call_tool_resolved _ _ _ _ _ _ (Hres _ (proj1 Hnames))).
    cbv zeta. rewrite Hcodec. cbn [fst snd]. reflexivity.
Qed.

(** X18: the router only ever resolves a name to a server of the
    current registry, and one whose normalized name is that of the alias
    the index holds for the name or of the alias the name claims; a stale
    index entry never yields a server. *)
Theorem _get_mcp_server_from_tool_name_sound
  (self : MCPServerManager) (name_ : string) (server : MCPServer) :
  _get_mcp_server_from_tool_name self name_ = Some server ->
  In server (PyDict.values (get_registry self))
  /\ ((exists alias,
          PyDict.get name_ (tool_name_to_mcp_server_name_mapping self)
          = Some alias
          /\ normalize_server_name (name server) = normalize_server_name alias)
      \/ (is_tool_name_prefixed name_ = true
          /\ normalize_server_name (name server)
             = normalize_server_name
                 (snd (get_server_name_prefix_tool_mcp name_)))).
Proof.
  unfold _get_mcp_server_from_tool_name, server_named. intros H.
  assert (Hprefix :
            (if is_tool_name_prefixed name_
             then find (fun s => String.eqb (normalize_server_name (name s))
                                   (normalize_server_name
                                      (snd (get_server_name_prefix_tool_mcp
                                              name_))))
                       (PyDict.values (get_registry self))
             else None) = Some server ->
            In server (PyDict.values (get_registry self))
            /\ is_tool_name_prefixed name_ = true
            /\ normalize_server_name (name server)
               = normalize_server_name
                   (snd (get_server_name_prefix_tool_mcp name_))).
  { destruct (is_tool_name_prefixed name_); [|discriminate].
    intros Hf. apply find_some in Hf. destruct Hf as [Hin Heq].
    apply String.eqb_eq in Heq. auto. }
  destruct (PyDict.get name_ (tool_name_to_mcp_server_name_mapping self))
    as [alias|] eqn:Ei.
  - destruct (find _ (PyDict.values (get_registry self))) as [s|] eqn:Ef.
    + injection H as <-. apply find_some in Ef. destruct Ef as [Hin Heq].
      apply String.eqb_eq in Heq. split; [exact Hin|]. left. now exists alias.
    + destruct (Hprefix H) as (Hin & Hp & Hn). auto.
  - destruct (Hprefix H) as (Hin & Hp & Hn). auto.
Qed.

(** X19: with no server registered, every call is refused with the
    not-found [ValueError], whatever the index still holds, and no upstream
    is contacted. *)
Theorem call_tool_on_empty_registry
  (name_ : string) (arguments : json)
  (user_api_key_auth : option UserAPIKeyAuth)
  (mcp_auth_header : option string) (self : MCPServerManager) :
  get_registry self = [] ->
  call_tool name_ arguments user_api_key_auth mcp_auth_header self
  = (Raise (ValueError ("Tool " ++ name_ ++ " not found")%string), self).
Proof.
  intros Hempty.
  assert (Hnone : _get_mcp_server_from_tool_name self name_ = None).
  { unfold _get_mcp_server_from_tool_name, server_named. rewrite Hempty. cbn.
    destruct (PyDict.get name_ _); destruct (is_tool_name_prefixed name_);
      reflexivity. }
  unfold call_tool.
  destruct (get_server_name_prefix_tool_mcp name_) as [orig pre].
  unfold bind, get_self, raise. now rewrite Hnone.
Qed.

(** X20: [call_tool] leaves the manager as it is, whether it returns,
    refuses the name or relays a fault of the upstream; every fault it
    raises is one of its two [ValueError]s or the fault of the upstream. *)
Theorem call_tool_is_read_only
  (name_ : string) (arguments : json)
  (user_api_key_auth : option UserAPIKeyAuth)
  (mcp_auth_header : option string) (self : MCPServerManager) :
  snd (call_tool name_ arguments user_api_key_auth mcp_auth_header self) = self
  /\ forall e,
      fst (call_tool name_ arguments user_api_key_auth mcp_auth_header self)
      = Raise e ->
      e = ValueError ("Tool " ++ name_ ++ " not found")%string
      \/ (exists server,
            _get_mcp_server_from_tool_name self name_ = Some server
            /\ (e = ValueError
                      ("Tool " ++ name_ ++ " server prefix mismatch: expected "
                         ++ name server ++ ", got "
                         ++ snd (get_server_name_prefix_tool_mcp name_))%string
                \/ MCPClient_call_tool
                     (_create_mcp_client server mcp_auth_header)
                     (mkParams (fst (get_server_name_prefix_tool_mcp name_))
                               arguments)
                   = Raise e)).
Proof.
  destruct (_get_mcp_server_from_tool_name self name_) as [server|] eqn:Hres.
  - rewrite (call_tool_resolved _ _ _ _ _ _ Hres). cbv zeta.
    destruct (negb _ && negb _); cbn [fst snd]; (split; [reflexivity|]);
      intros e He; right; exists server; (split; [reflexivity|]).
    + left. now injection He as <-.
    + right. exact He.
  - unfold call_tool.
    destruct (get_server_name_prefix_tool_mcp name_) as [orig pre].
    unfold bind, get_self, raise. rewrite Hres. cbn [fst snd].
    split; [reflexivity|]. intros e He. left. now injection He as <-.
Qed.

(** X21: [get_tools_for_server] returns the empty list for an
    identifier that does not resolve, without touching the manager, and
    never raises an [Exception]: the fault of an upstream becomes an empty
    list, only a cancellation gets through. *)
Theorem get_tools_for_server_never_fails
  (id : string) (self : MCPServerManager) :
  (get_mcp_server_by_id self id = None ->
   get_tools_for_server id self = (Return [], self))
  /\ (forall e, fst (get_tools_for_server id self) = Raise e ->
                e = CancelledError).
Proof.
  unfold get_tools_for_server, bind, get_self, ret.
  destruct (get_mcp_server_by_id self id) as [server|].
  - split; [discriminate|]. intros e.
    unfold _get_tools_from_server, try_except_Exception, bind, lift.
    destruct (MCPClient_list_tools (_create_mcp_client server None))
      as [tools|e'].
    + rewrite prefix_tools_state. discriminate.
    + destruct e'; cbn; try discriminate. intros H. now injection H as <-.
  - split; [reflexivity|]. discriminate.
Qed.

End IndexAfterListing.


Lemma listed_tools_route_to_their_server_witness :
  let self' :=
    snd (@_get_tools_from_server SpecUtils.utils Scenario.world
           (server_of_config "files" Scenario.cfg_files) None Scenario.loaded)
  in
  @call_tool SpecUtils.utils Scenario.world "files.search" (JObj []) None None
             self'
  = (@MCPClient_call_tool Scenario.world
       (_create_mcp_client (server_of_config "files" Scenario.cfg_files) None)
       (mkParams "search" (JObj [])), self').
Proof.
  exact (proj1 (@listed_tools_route_to_their_server
                  SpecUtils.utils Scenario.world
                  (server_of_config "files" Scenario.cfg_files) None None
                  [Scenario.read_tool; Scenario.search_tool]
                  Scenario.search_tool (JObj []) None Scenario.loaded
                  ltac:(vm_compute; reflexivity)
                  ltac:(right; left; reflexivity)
                  ltac:(vm_compute; reflexivity))
               ltac:(vm_compute; reflexivity)).
Defined.

Lemma _get_mcp_server_from_tool_name_sound_witness :
  In (server_of_config "docs" Scenario.cfg_docs)
     (PyDict.values (get_registry Scenario.listed)).
Proof.
  exact (proj1 (@_get_mcp_server_from_tool_name_sound
                  SpecUtils.utils Scenario.listed "read"
                  (server_of_config "docs" Scenario.cfg_docs)
                  ltac:(vm_compute; reflexivity))).
Defined.

Lemma call_tool_on_empty_registry_witness :
  @call_tool SpecUtils.utils Scenario.world "files.read" (JObj []) None None
             (set_mapping init [("files.read", "files")])
  = (Raise (ValueError "Tool files.read not found"),
     set_mapping init [("files.read", "files")]).
Proof.
  exact (@call_tool_on_empty_registry
           SpecUtils.utils Scenario.world "files.read" (JObj []) None None
           (set_mapping init [("files.read", "files")]) eq_refl).
Defined.

(* ################################################################# *)
(** * Identifiers that coincide *)

Lemma append_assoc (a b c : string) :
  ((a ++ b) ++ c)%string = (a ++ (b ++ c))%string.
Proof. induction a as [|x a IH]; cbn; [reflexivity|now rewrite IH]. Qed.

(** X22: the identifier is a function of the joined string, not of the
    five parameters: moving a ["|"] boundary between the server name and
    the address gives the same identifier, and so do an absent and an empty
    [auth_type]. *)
Theorem _generate_stable_server_id_coincides
  (a b url transport spec_version : string) (auth_type : option string) :
  _generate_stable_server_id (a ++ "|" ++ b) url transport spec_version
                             auth_type
  = _generate_stable_server_id a (b ++ "|" ++ url) transport spec_version
                               auth_type
  /\ _generate_stable_server_id a url transport spec_version (Some "")
     = _generate_stable_server_id a url transport spec_version None.
Proof.
  split; [|reflexivity].
  unfold _generate_stable_server_id, params_string.
  now rewrite !append_assoc.
Qed.

Section SameIdentifier.

Context {U : Utils}.

(** X23: the static partition keeps one record per identifier, the
    last one loaded: of two well-formed configuration entries with the same
    identifier, loaded into a fresh manager, only the second is held. *)
Theorem load_servers_from_config_same_id_keeps_last
  (n1 n2 : string) (c1 c2 : ServerConfig) :
  validate_mcp_server_name n1 = Return tt ->
  validate_mcp_server_name n2 = Return tt ->
  server_id (server_of_config n1 c1) = server_id (server_of_config n2 c2) ->
  load_servers_from_config [(n1, c1); (n2, c2)] init
  = (Return tt,
     set_config_mcp_servers init
       [(server_id (server_of_config n2 c2), server_of_config n2 c2)]).
Proof.
  intros H1 H2 Hid.
  rewrite (load_valid_state [(n1, c1); (n2, c2)]
             ltac:(repeat constructor; assumption) init).
  unfold PyDict.update, config_item. cbn [map fold_left fst snd].
  cbn [config_mcp_servers init PyDict.set]. rewrite <- Hid.
  rewrite String.eqb_refl. reflexivity.
Qed.

End SameIdentifier.

Lemma load_servers_from_config_same_id_keeps_last_witness :
  Scenario.load
    [("files|http://x", Scenario.config_of_url "y");
     ("files", Scenario.config_of_url "http://x|y")] init
  = (Return tt,
     set_config_mcp_servers init
       [(server_id (server_of_config "files"
                      (Scenario.config_of_url "http://x|y")),
         server_of_config "files" (Scenario.config_of_url "http://x|y"))]).
Proof.
  exact (@load_servers_from_config_same_id_keeps_last
           SpecUtils.utils
           "files|http://x" "files"
           (Scenario.config_of_url "y") (Scenario.config_of_url "http://x|y")
           eq_refl eq_refl ltac:(vm_compute; reflexivity)).
Defined.

(* ################################################################# *)
(** * Clients and warm-up *)

Section Clients.

Context {U : Utils} {W : World}.

(** X24: neither [load_servers_from_config] nor [add_update_server]
    gives a record an authentication token, so the credential of the
    client built for such a record is the header of the caller when it is
    non-empty, and none otherwise, whatever the transport. *)
Theorem clients_carry_the_callers_credential
  (mcp_auth_header : option string) :
  (forall server_name server_config,
      auth_value (_create_mcp_client
                    (server_of_config server_name server_config)
                    mcp_auth_header)
      = if truthy mcp_auth_header then mcp_auth_header else None)
  /\ (forall mcp_server,
         auth_value (_create_mcp_client (server_of_table mcp_server)
                                        mcp_auth_header)
         = if truthy mcp_auth_header then mcp_auth_header else None).
Proof.
  split; intros; unfold _create_mcp_client;
    match goal with
    | |- context [if String.eqb ?a ?b then _ else _] =>
        destruct (String.eqb a b)
    end; reflexivity.
Qed.



End Clients.


(* ################################################################# *)
(** * Listing without restriction *)

Section DefaultListing.

Context {U : Utils} {W : World}.




End DefaultListing.

